(** * Table-of-contents recovery: a shallow embedding of
      [src/add_bookmarks_to_pdf.py] and the properties of its pipeline.

    Python strings are modelled as [string] (characters with code points
    below 256), Python integers as [Z], exceptions as the [Raise] branch of
    a small error monad.  The text-extraction collaborator is modelled by
    its output: a page is the text that [page.extract_text()] returns.
    The interpreter's configurable cap on the digit count of [int]/[str]
    conversions is an interpreter setting and stays outside the model. *)

From Stdlib Require Import ZArith List Bool Ascii String Lia Permutation.
Import ListNotations.

Open Scope string_scope.
Open Scope Z_scope.

(* ================================================================== *)
(** * Part I: definitions *)
(* ================================================================== *)

(** ** Exceptions *)

Inductive exn : Type := ValueError | IndexError.

Inductive result (A : Type) : Type :=
| Ok (a : A)
| Raise (e : exn).

Arguments Ok {A} a.
Arguments Raise {A} e.

Definition bind {A B : Type} (m : result A) (k : A -> result B) : result B :=
  match m with
  | Ok a => k a
  | Raise e => Raise e
  end.

Notation "x <- m ;; k" := (bind m (fun x => k))
  (at level 61, m at next level, right associativity).

Fixpoint mapM {A B : Type} (f : A -> result B) (l : list A) : result (list B) :=
  match l with
  | [] => Ok []
  | x :: xs => y <- f x ;; ys <- mapM f xs ;; Ok (y :: ys)
  end.

(** ** The Python built-ins the program uses *)

Module Py.

Definition ord (c : ascii) : Z := Z.of_N (N_of_ascii c).

(** [\d] and the digits [int] accepts: below code point 256 these are the
    ten ASCII digits. *)
Definition is_digit (c : ascii) : bool := (48 <=? ord c) && (ord c <=? 57).

Definition digit_val (c : ascii) : Z := ord c - 48.

(** The whitespace that [int] strips around a literal, below code point
    256: tab to carriage return, the space, and the two whitespace
    characters above 127.  The separators 28 to 31 are not among it:
    [int] raises on them. *)
Definition int_space (c : ascii) : bool :=
  let n := ord c in
  ((9 <=? n) && (n <=? 13)) || (n =? 32) || (n =? 133) || (n =? 160).

(** The line boundaries of [str.splitlines] below code point 256. *)
Definition is_linebreak (c : ascii) : bool :=
  let n := ord c in
  ((10 <=? n) && (n <=? 13)) || ((28 <=? n) && (n <=? 30)) || (n =? 133).

Definition lower_char (c : ascii) : ascii :=
  let n := ord c in
  if ((65 <=? n) && (n <=? 90))
     || ((192 <=? n) && (n <=? 222) && negb (n =? 215))
  then ascii_of_N (Z.to_N (n + 32))
  else c.

(** [s.lower()] *)
Fixpoint lower (s : string) : string :=
  match s with
  | EmptyString => EmptyString
  | String c r => String (lower_char c) (lower r)
  end.

(** [s.startswith(p)] *)
Definition startswith (p s : string) : bool := String.prefix p s.

(** [s[n:]] *)
Fixpoint drop (n : nat) (s : string) : string :=
  match n, s with
  | O, _ => s
  | S n', String _ r => drop n' r
  | S _, EmptyString => EmptyString
  end.

(** [s.lstrip(chars satisfying p)] *)
Fixpoint lstrip_by (p : ascii -> bool) (s : string) : string :=
  match s with
  | EmptyString => EmptyString
  | String c r => if p c then lstrip_by p r else s
  end.

(** [s.rstrip(chars satisfying p)] *)
Fixpoint rstrip_by (p : ascii -> bool) (s : string) : string :=
  match s with
  | EmptyString => EmptyString
  | String c r =>
      match rstrip_by p r with
      | EmptyString => if p c then EmptyString else String c EmptyString
      | r' => String c r'
      end
  end.

(** [s.partition(" ")]: the part before the first space and the part
    after it; the whole string and [""] when there is no space. *)
Fixpoint partition_space (s : string) : string * string :=
  match s with
  | EmptyString => (EmptyString, EmptyString)
  | String c r =>
      if Ascii.eqb c " " then (EmptyString, r)
      else let '(h, t) := partition_space r in (String c h, t)
  end.

(** The last space of [s], if any: the parts before and after it. *)
Fixpoint rfind_space (s : string) : option (string * string) :=
  match s with
  | EmptyString => None
  | String c r =>
      match rfind_space r with
      | Some (h, t) => Some (String c h, t)
      | None => if Ascii.eqb c " " then Some (EmptyString, r) else None
      end
  end.

(** [s.rpartition(" ")]: [("", s)] when there is no space. *)
Definition rpartition_space (s : string) : string * string :=
  match rfind_space s with
  | Some ht => ht
  | None => (EmptyString, s)
  end.

(** [s.split(sep)] for a one-character separator. *)
Fixpoint split (sep : ascii) (s : string) : list string :=
  match s with
  | EmptyString => [EmptyString]
  | String c r =>
      if Ascii.eqb c sep then EmptyString :: split sep r
      else match split sep r with
           | h :: t => String c h :: t
           | [] => [String c EmptyString]
           end
  end.

(** [sep.join(l)] *)
Fixpoint join (sep : string) (l : list string) : string :=
  match l with
  | [] => EmptyString
  | [x] => x
  | x :: xs => x ++ sep ++ join sep xs
  end.

(** [t in s] *)
Fixpoint contains (t s : string) : bool :=
  String.prefix t s
  || match s with
     | EmptyString => false
     | String _ r => contains t r
     end.

(** [s.splitlines()]; [cur] is the line being read. *)
Fixpoint splitlines_from (cur : string) (s : string) : list string :=
  match s with
  | EmptyString =>
      match cur with EmptyString => [] | _ => [cur] end
  | String c r =>
      if Ascii.eqb c "013" then
        match r with
        | String "010" r' => cur :: splitlines_from EmptyString r'
        | _ => cur :: splitlines_from EmptyString r
        end
      else if is_linebreak c then cur :: splitlines_from EmptyString r
      else splitlines_from (cur ++ String c EmptyString) r
  end.

Definition splitlines (s : string) : list string :=
  splitlines_from EmptyString s.

(** The digits of an [int] literal in base ten: digits with single
    underscores between them.  [seen] says that the previous character
    was a digit. *)
Fixpoint int_digits (acc : Z) (seen : bool) (s : string) : option Z :=
  match s with
  | EmptyString => if seen then Some acc else None
  | String c r =>
      if is_digit c then int_digits (10 * acc + digit_val c) true r
      else if Ascii.eqb c "_" && seen then int_digits acc false r
      else None
  end.

(** [int(s)]: surrounding whitespace, an optional sign, then the digits;
    [ValueError] otherwise. *)
Definition int (s : string) : result Z :=
  let t := lstrip_by int_space (rstrip_by int_space s) in
  let '(neg, body) :=
    match t with
    | String c r =>
        if Ascii.eqb c "-" then (true, r)
        else if Ascii.eqb c "+" then (false, r)
        else (false, t)
    | EmptyString => (false, t)
    end in
  match int_digits 0 false body with
  | Some n => Ok (if neg then - n else n)
  | None => Raise ValueError
  end.

Definition digit_char (d : Z) : ascii := ascii_of_N (Z.to_N (48 + d)).

(** The decimal digits of a natural number, most significant first, in
    front of [acc]. *)
Fixpoint str_digits (fuel : nat) (n : Z) (acc : string) : string :=
  let acc' := String (digit_char (n mod 10)) acc in
  match fuel with
  | O => acc'
  | S f => if n <? 10 then acc' else str_digits f (n / 10) acc'
  end.

(** [str(n)] for an integer, which is also how an f-string renders it. *)
Definition str (n : Z) : string :=
  if n <? 0
  then String "-" (str_digits (Z.to_nat (Z.log2 (- n))) (- n) EmptyString)
  else str_digits (Z.to_nat (Z.log2 n)) n EmptyString.

End Py.

(** ** Vocabulary for the statements *)

Fixpoint all_chars (p : ascii -> bool) (s : string) : bool :=
  match s with
  | EmptyString => true
  | String c r => p c && all_chars p r
  end.

(** A non-empty string of decimal digits. *)
Definition numeral (s : string) : Prop :=
  all_chars Py.is_digit s = true /\ s <> EmptyString.

Fixpoint dec_value (acc : Z) (s : string) : Z :=
  match s with
  | EmptyString => acc
  | String c r => dec_value (10 * acc + Py.digit_val c) r
  end.

(** The number a string of decimal digits denotes. *)
Definition decimal (s : string) : Z := dec_value 0 s.

(** The line shape in the words of the spec: the line ends in a digit
    that comes after a non-digit character. *)
Fixpoint ends_in_digit_after_non_digit (line : string) : bool :=
  match line with
  | EmptyString => false
  | String c r =>
      match r with
      | String d EmptyString => negb (Py.is_digit c) && Py.is_digit d
      | _ => ends_in_digit_after_non_digit r
      end
  end.

(** A line that ends with a number: some non-digit character is followed
    by one or more digits that run to the end of the line. *)
Fixpoint ends_with_number (line : string) : bool :=
  match line with
  | EmptyString => false
  | String c r =>
      (negb (Py.is_digit c) && all_chars Py.is_digit r
       && negb (String.eqb r EmptyString))
      || ends_with_number r
  end.

(** Ten lines of the same text, as the text of one page. *)
Definition ten_lines (line : string) : string :=
  Py.join (String "010" EmptyString) (repeat line 10).

(** ** The helpers of [src/utils.py] *)

Module Utils.

Definition non_digit (c : ascii) : bool := negb (Py.is_digit c).

(** Modelled from the spec: [ut.strip_nonnumeric] of [src/utils.py], which
    is not among the sources.  It strips the leading non-numeric
    characters when [leading] is set and the trailing ones when [trailing]
    is set; called with the string alone it strips the trailing ones (the
    docstring of [clean_buffer]). *)
Definition strip_nonnumeric (s : string) (leading trailing : bool) : string :=
  let s1 := if leading then Py.lstrip_by non_digit s else s in
  if trailing then Py.rstrip_by non_digit s1 else s1.

Definition is_number (s : string) : bool :=
  match s with
  | EmptyString => false
  | _ => match Py.int_digits 0 false s with Some _ => true | None => false end
  end.

Definition is_letter (s : string) : bool :=
  match Py.lower s with
  | String c EmptyString => (97 <=? Py.ord c) && (Py.ord c <=? 122)
  | _ => false
  end.

(** Modelled from the spec: [ut.check_numeric] of [src/utils.py], the
    numeric classifier: a token denotes a number when it is a plain
    integer or a dotted composite of integers, or, behind an appendix
    prefix, a dotted composite of integers and single letters.  The
    program is verified for every classifier; this one instantiates it
    on concrete inputs. *)
Definition check_numeric (s : string) : bool :=
  if Py.startswith "appendix " (Py.lower s)
  then forallb (fun t => is_number t || is_letter t)
               (Py.split "." (Py.drop 9 s))
  else forallb is_number (Py.split "." s).

(** Modelled from the spec: [ut.letter_to_number] of [src/utils.py]: a
    single alphabetic token becomes its 1-based position in the alphabet
    (["A"] is 1, ["B"] is 2).  As for [check_numeric], the program is
    verified for every such function. *)
Definition letter_to_number (s : string) : result Z :=
  match Py.lower s with
  | String c EmptyString =>
      if (97 <=? Py.ord c) && (Py.ord c <=? 122)
      then Ok (Py.ord c - 96) else Raise ValueError
  | _ => Raise ValueError
  end.

End Utils.

(** ** [class Entry] *)

Record Entry : Type := mkEntry {
  title : string;
  page : Z;
  appendix : bool;
  chapter : Z;
  section : Z;
  subsection : Z
}.

Definition with_page (e : Entry) (p : Z) : Entry :=
  mkEntry (title e) p (appendix e) (chapter e) (section e) (subsection e).

(** [while len(section) < 3: section.append(0)] *)
Fixpoint pad_loop (fuel : nat) (l : list Z) : list Z :=
  match fuel with
  | O => l
  | S f => if (List.length l <? 3)%nat then pad_loop f (l ++ [0]) else l
  end.

(** [l[n]], which raises [IndexError] past the end of the list. *)
Definition index {A : Type} (l : list A) (n : nat) : result A :=
  match nth_error l n with
  | Some x => Ok x
  | None => Raise IndexError
  end.

(** Python truthiness of an integer. *)
Definition truthy (n : Z) : bool := negb (n =? 0).

(** [Entry.__str__] *)
Definition Entry_str (e : Entry) : string :=
  if appendix e then "[UNHANDLED APPENDIX]"
  else if truthy (subsection e) then
    Py.str (chapter e) ++ "." ++ Py.str (section e) ++ "."
    ++ Py.str (subsection e) ++ " - " ++ title e
    ++ " (page " ++ Py.str (page e) ++ ")"
  else if truthy (section e) then
    Py.str (chapter e) ++ "." ++ Py.str (section e) ++ " - " ++ title e
    ++ " (page " ++ Py.str (page e) ++ ")"
  else
    "Ch. " ++ Py.str (chapter e) ++ " - " ++ title e
    ++ " (page " ++ Py.str (page e) ++ ")".

(** [split_line] *)
Definition split_line (line : string) : string * string * string :=
  let '(section0, title0) := Py.partition_space line in
  let '(section1, title1) :=
    if String.eqb (Py.lower section0) "appendix"
    then let '(s, t) := Py.partition_space title0 in ("Appendix " ++ s, t)
    else (section0, title0) in
  let '(title2, page2) := Py.rpartition_space title1 in
  (section1, title2, page2).

(** [clean_buffer] *)
Definition clean_buffer (buffer : string * string * string)
  : string * string * string :=
  let '(b0, b1, b2) := buffer in
  split_line (Utils.strip_nonnumeric (b0 ++ " " ++ b1 ++ " " ++ b2) false true).

(** ** [identify_toc] *)

(** [bool(re.match(r"^.*\D\d", line))]: some non-digit is followed by a
    digit, with no newline before the non-digit. *)
Fixpoint toc_line_shape (line : string) : bool :=
  match line with
  | String c (String d _ as r) =>
      (negb (Py.is_digit c) && Py.is_digit d)
      || (negb (Ascii.eqb c "010") && toc_line_shape r)
  | _ => false
  end.

(** [len(cond_lines) > 0.75 * len(all_lines)]; the product is exact in
    binary floating point for every line count a page can have, so the
    comparison is the one of the integers [4 * cond] and [3 * all]. *)
Definition over_threshold (all_lines : list string) : bool :=
  let cond_lines := filter toc_line_shape all_lines in
  3 * Z.of_nat (List.length all_lines) <? 4 * Z.of_nat (List.length cond_lines).

(** The state of the scan: the lines kept so far and [toc_found]. *)
Definition toc_state : Type := list string * bool.

Inductive flow : Type := Continue | Break.

(** One iteration of the [for] loop of [identify_toc]. *)
Definition toc_step (st : toc_state) (pg : string) : toc_state * flow :=
  let '(toc_text, toc_found) := st in
  let all_lines := Py.splitlines pg in
  if over_threshold all_lines then
    if negb toc_found && (List.length all_lines <? 10)%nat
    then (st, Continue)
    else ((toc_text ++ all_lines)%list, true, Continue)
  else if toc_found then (st, Break)
  else (st, Continue).

(** The loop; the [else] of the [for] prints when no [break] happened. *)
Fixpoint toc_loop (pages : list string) (st : toc_state)
  : list string * toc_state :=
  match pages with
  | [] => (["No table of contents found!"], st)
  | pg :: rest =>
      match toc_step st pg with
      | (st', Continue) => toc_loop rest st'
      | (st', Break) => ([], st')
      end
  end.

(** [identify_toc]: what it prints and the [toc_text] it returns. *)
Definition identify_toc (pages : list string) : list string * list string :=
  let '(out, (toc_text, _)) := toc_loop pages ([], false) in
  ("Scanning for table of contents..." :: out, toc_text).

(** ** [offset_first_page]

    Entries are objects, and the calibrator changes them in place: a heap
    maps the address of an object to its fields, an entry list is a list
    of addresses. *)

Definition loc : Type := nat.
Definition heap : Type := loc -> Entry.

Definition set_page (h : heap) (r : loc) (p : Z) : heap :=
  fun r' => if Nat.eqb r' r then with_page (h r) p else h r'.

(** [for entry in contents: entry.page += delta] *)
Definition add_to_pages (delta : Z) (contents : list loc) (h : heap) : heap :=
  fold_left (fun h0 r => set_page h0 r (page (h0 r) + delta)) contents h.

(** [" ".join(page.extract_text().splitlines()[:3])] *)
Definition page_head (pg : string) : string :=
  Py.join " " (firstn 3 (Py.splitlines pg)).

(** The loop of [offset_first_page] from page [i] on.  Falling off the
    end of the loop returns [None]. *)
Fixpoint offset_loop (i : Z) (pages : list string) (h : heap)
  (contents : list loc) : result (heap * option (list loc)) :=
  match pages with
  | [] => Ok (h, None)
  | pg :: rest =>
      let text := page_head pg in
      match contents with
      | [] => Raise IndexError
      | c0 :: _ =>
          if Py.contains (title (h c0)) text
          then Ok (add_to_pages (i - 1) contents h, Some contents)
          else offset_loop (i + 1) rest h contents
      end
  end.

Definition offset_first_page (pages : list string) (h : heap)
  (contents : list loc) : result (heap * option (list loc)) :=
  offset_loop 0 pages h contents.

(** ** [add_bookmarks_to_pdf]: the three groupings *)

Definition enumerate {A : Type} (l : list A) : list (nat * A) :=
  combine (seq 0 (List.length l)) l.

Definition any (l : list bool) : bool := existsb (fun b => b) l.
Definition all (l : list bool) : bool := forallb (fun b => b) l.

Definition chapter_level (contents : list Entry) : list Entry :=
  filter (fun entry =>
            negb (any [truthy (section entry); truthy (subsection entry);
                       appendix entry]))
         contents.

Definition section_level (contents : list Entry) : list (list Entry) :=
  map (fun chap =>
         filter (fun entry =>
                   all [chapter entry =? chapter chap;
                        truthy (section entry);
                        negb (any [truthy (subsection entry); appendix entry])])
                contents)
      (chapter_level contents).

Definition subsection_level (contents : list Entry)
  : list (list (list Entry)) :=
  map (fun ic : nat * Entry =>
         let '(i, chap) := ic in
         map (fun sec =>
                filter (fun entry =>
                          all [chapter entry =? chapter chap;
                               section entry =? section sec;
                               truthy (subsection entry);
                               negb (appendix entry)])
                       contents)
             (filter (fun sec => chapter sec =? chapter chap)
                     (nth i (section_level contents) [])))
      (enumerate (chapter_level contents)).


(** The three entries of a small table of contents. *)
Definition example_contents : list Entry :=
  [mkEntry "Introduction" 1 false 1 0 0;
   mkEntry "Background" 3 false 1 1 0;
   mkEntry "Prior Work" 5 false 1 1 1].

(** ** The parts that call the numeric classifier *)

Section Stitcher.

(** [ut.check_numeric] and [ut.letter_to_number] live in [src/utils.py],
    which is not among the sources: the program is verified for every
    classifier that returns a [bool] and every letter conversion. *)
Variable check_numeric : string -> bool.
Variable letter_to_number : string -> result Z.

(** [Entry.__init__].  The statement [if ut.check_numeric(section[0]):
    pass] of the appendix branch does nothing and is left out. *)
Definition Entry_init (section0 title0 page0 : string) : result Entry :=
  pg <- Py.int page0 ;;
  let is_appendix := Py.startswith "appendix " (Py.lower section0) in
  nums <- (if is_appendix then
             mapM (fun s => if check_numeric s then Py.int s
                            else letter_to_number s)
                  (Py.split "." (Py.drop 9 section0))
           else
             mapM Py.int
                  (Py.split "." (Utils.strip_nonnumeric section0 true true))) ;;
  let padded := pad_loop 3 nums in
  chapter0 <- index padded 0 ;;
  section1 <- index padded 1 ;;
  subsection2 <- index padded 2 ;;
  Ok (mkEntry title0 pg is_appendix chapter0 section1 subsection2).

(** The constructor applied to the three parts of a triple. *)
Definition Entry_of (t : string * string * string) : result Entry :=
  let '(s, ttl, pg) := t in Entry_init s ttl pg.

(** The buffer of [parse_toc]: empty ([[]] or [()]) or a triple. *)
Definition buffer : Type := option (string * string * string).

(** One iteration of the [for] loop of [parse_toc]: the [match] on
    [bool(len(buffer)), check_numeric(section), check_numeric(page)]. *)
Definition stitch_step (st : list Entry * buffer) (line : string)
  : result (list Entry * buffer) :=
  let '(contents, buf) := st in
  let '(section0, title0, page0) := split_line line in
  match buf, check_numeric section0, check_numeric page0 with
  | None, true, true =>
      e <- Entry_init section0 title0 page0 ;;
      Ok ((contents ++ [e])%list, buf)
  | None, true, false =>
      Ok (contents, Some (section0, title0, page0))
  | Some (b0, b1, b2), false, false =>
      Ok (contents,
          Some (b0, b1 ++ " " ++ b2 ++ " " ++ section0 ++ " " ++ title0, page0))
  | Some (b0, b1, b2), false, true =>
      e <- Entry_init b0 (b1 ++ " " ++ b2 ++ " " ++ section0 ++ " " ++ title0)
                      page0 ;;
      Ok ((contents ++ [e])%list, None)
  | Some b, true, true =>
      e1 <- Entry_of (clean_buffer b) ;;
      e2 <- Entry_init section0 title0 page0 ;;
      Ok ((contents ++ [e1; e2])%list, None)
  | Some b, true, false =>
      e1 <- Entry_of (clean_buffer b) ;;
      Ok ((contents ++ [e1])%list, Some (section0, title0, page0))
  | None, false, _ => Ok st
  end.

(** The whole loop. *)
Fixpoint stitch (toc_text : list string) (st : list Entry * buffer)
  : result (list Entry * buffer) :=
  match toc_text with
  | [] => Ok st
  | line :: rest => st' <- stitch_step st line ;; stitch rest st'
  end.

(** The entries that [parse_toc] created are fresh objects, at the
    addresses [0], [1], ... in the order of the list. *)
Definition alloc (contents : list Entry) : heap :=
  fun r => nth r contents (mkEntry EmptyString 0 false 0 0 0).

(** [parse_toc]: the list it returns, read from the heap after the
    calibration; [None] when [offset_first_page] returns [None].  Its
    progress message and the verbose channel are left out. *)
Definition parse_toc (pages : list string) (toc_text : list string)
  : result (option (list Entry)) :=
  st <- stitch toc_text ([], None) ;;
  let contents := fst st in
  r <- offset_first_page pages (alloc contents)
                         (seq 0 (List.length contents)) ;;
  Ok (option_map (map (fst r)) (snd r)).

(** [write_bookmarks] up to the call of [add_bookmarks_to_pdf]. *)
Definition write_bookmarks_toc (pages : list string)
  : result (option (list Entry)) :=
  parse_toc pages (snd (identify_toc pages)).

End Stitcher.

(** ** The outline that [add_bookmarks_to_pdf] writes

    The writer is a collaborator: what is modelled is the sequence of
    its [add_outline_item] calls, each with its label, its page and the
    handle of its parent, when the writer accepts them all.  The handle
    a call returns is the position of the call. *)

Definition outline_call : Type := string * Z * option nat.

(** [writer.add_outline_item(label, page, parent)] *)
Definition add_outline_item (w : list outline_call) (label : string)
  (pg : Z) (parent : option nat) : list outline_call * nat :=
  ((w ++ [(label, pg, parent)])%list, List.length w).

(** [for subsection in subsection_level[i][j]: ...] *)
Definition write_subsections (section_mark : nat) (subs : list Entry)
  (w : list outline_call) : list outline_call :=
  fold_left (fun w0 sub =>
               fst (add_outline_item w0 (Entry_str sub) (page sub)
                                     (Some section_mark)))
            subs w.

(** [for j, section in enumerate(section_level[i]): ...] *)
Definition write_sections (contents : list Entry) (i : nat)
  (chapter_mark : nat) (w : list outline_call) : list outline_call :=
  fold_left (fun w0 (jsec : nat * Entry) =>
               let '(j, sec) := jsec in
               let '(w1, section_mark) :=
                 add_outline_item w0 (Entry_str sec) (page sec)
                                  (Some chapter_mark) in
               write_subsections section_mark
                 (nth j (nth i (subsection_level contents) []) []) w1)
            (enumerate (nth i (section_level contents) [])) w.

(** [for i, chapter in enumerate(chapter_level): ...] *)
Definition write_outline (contents : list Entry) : list outline_call :=
  fold_left (fun w0 (ichap : nat * Entry) =>
               let '(i, chap) := ichap in
               let '(w1, chapter_mark) :=
                 add_outline_item w0 (Entry_str chap) (page chap) None in
               write_sections contents i chapter_mark w1)
            (enumerate (chapter_level contents)) [].

(** A call of the writer that writes an entry of [contents] that is no
    appendix, with the label and the page of the entry. *)
Definition call_of_entry (contents : list Entry) (c : outline_call) : Prop :=
  exists e, In e contents /\ appendix e = false
            /\ fst (fst c) = Entry_str e /\ snd (fst c) = page e
            /\ fst (fst c) <> "[UNHANDLED APPENDIX]".

(** How [write_bookmarks] can fail before the writer is reached: an
    exception of [parse_toc], or the [TypeError] of iterating over the
    [None] that [parse_toc] returned. *)
Inductive failure : Type :=
| ParseFailure (e : exn)
| TypeError.

(** [write_bookmarks], from the pages of the document that was read to
    the calls made to the writer. *)
Definition write_bookmarks (check_numeric : string -> bool)
  (letter_to_number : string -> result Z) (pages : list string)
  : failure + list outline_call :=
  match write_bookmarks_toc check_numeric letter_to_number pages with
  | Raise e => inl (ParseFailure e)
  | Ok None => inl TypeError
  | Ok (Some contents) => inr (write_outline contents)
  end.

(** The number of spaces of a string. *)
Fixpoint spaces (s : string) : nat :=
  match s with
  | EmptyString => O
  | String c r => ((if Ascii.eqb c " " then 1 else 0) + spaces r)%nat
  end.

(* ================================================================== *)
(** * Part II: properties *)
(* ================================================================== *)

Example int_ex1 : Py.int " 42 " = Ok 42. Proof. reflexivity. Qed.
Example int_ex2 : Py.int "87)" = Raise ValueError. Proof. reflexivity. Qed.
Example int_ex3 : Py.int "-1_0" = Ok (-10). Proof. reflexivity. Qed.
Example int_ex4 : Py.int "" = Raise ValueError. Proof. reflexivity. Qed.
Example int_ex5 : Py.int (String "031" "87") = Raise ValueError.
Proof. reflexivity. Qed.
Example int_ex6 : Py.int (String "009" "87 ") = Ok 87.
Proof. reflexivity. Qed.
Example entry_ex3 :
  Entry_init Utils.check_numeric Utils.letter_to_number
    "5.2.2" "Devices" (String "031" "87")
  = Raise ValueError.
Proof. reflexivity. Qed.
Example str_ex1 : Py.str 1234567 = "1234567". Proof. reflexivity. Qed.
Example str_ex2 : Py.str (-30) = "-30". Proof. reflexivity. Qed.
Example str_ex3 : Py.str 0 = "0". Proof. reflexivity. Qed.
Example split_ex1 : Py.split "." "5.2.2" = ["5"; "2"; "2"]. Proof. reflexivity. Qed.
Example split_ex2 : Py.split "." "" = [""]. Proof. reflexivity. Qed.
Example splitlines_ex :
  Py.splitlines (String "a" (String "013" (String "010" (String "010" "b"))))
  = ["a"; ""; "b"].
Proof. reflexivity. Qed.

Example toc_line_shape_ex :
  map toc_line_shape ["5.2.2 Devices 87"; "Preface"; "12"; "a1"; "1a";
                      "2.1 Methods continued"]
  = [true; false; false; true; false; true].
Proof. reflexivity. Qed.

Example split_line_ex1 :
  split_line "5.2.2 Displacement Measurement Devices 87vi Contents"
  = ("5.2.2", "Displacement Measurement Devices 87vi", "Contents").
Proof. reflexivity. Qed.
Example split_line_ex2 :
  split_line "Appendix B.1 Tables 120" = ("Appendix B.1", "Tables", "120").
Proof. reflexivity. Qed.
Example clean_buffer_ex :
  clean_buffer ("5.2.2", "Displacement Measurement Devices 87vi", "Contents")
  = ("5.2.2", "Displacement Measurement Devices", "87").
Proof. reflexivity. Qed.
Example entry_ex1 :
  Entry_init Utils.check_numeric Utils.letter_to_number "Appendix B.1" "Tables" "120"
  = Ok (mkEntry "Tables" 120 true 2 1 0).
Proof. reflexivity. Qed.
Example entry_ex2 :
  Entry_str (mkEntry "Tables" 120 false 2 1 0) = "2.1 - Tables (page 120)".
Proof. reflexivity. Qed.
Example stitch_ex1 :
  stitch Utils.check_numeric Utils.letter_to_number
    ["1 Introduction 1"; "1.1 Background 3"; "1.1.1 Prior Work 5"] ([], None)
  = Ok ([mkEntry "Introduction" 1 false 1 0 0;
         mkEntry "Background" 3 false 1 1 0;
         mkEntry "Prior Work" 5 false 1 1 1], None).
Proof. reflexivity. Qed.
Example stitch_ex2 :
  stitch Utils.check_numeric Utils.letter_to_number
    ["2.1 Methods continued"; "from page 12 22"] ([], None)
  = Ok ([mkEntry "Methods continued from page 12" 22 false 2 1 0], None).
Proof. reflexivity. Qed.

(** ** Strings *)

Section StringFacts.

Lemma append_assoc (a b c : string) : (a ++ b) ++ c = a ++ b ++ c.
Proof. induction a as [|x a IH]; simpl; [reflexivity | now rewrite IH]. Qed.

Lemma append_nil_r (a : string) : a ++ "" = a.
Proof. induction a as [|x a IH]; simpl; [reflexivity | now rewrite IH]. Qed.

Lemma all_chars_app p (a b : string) :
  all_chars p (a ++ b) = all_chars p a && all_chars p b.
Proof.
  induction a as [|x a IH]; simpl; [reflexivity|].
  now rewrite IH, andb_assoc.
Qed.

Lemma all_chars_impl (p q : ascii -> bool) (s : string) :
  (forall c, p c = true -> q c = true) ->
  all_chars p s = true -> all_chars q s = true.
Proof.
  intros Hpq; induction s as [|x s IH]; simpl; [reflexivity|].
  intros H; apply andb_true_iff in H as [Hx Hs].
  now rewrite (Hpq _ Hx), IH.
Qed.

Lemma rstrip_by_keep_all p (t : string) :
  all_chars (fun c => negb (p c)) t = true -> Py.rstrip_by p t = t.
Proof.
  induction t as [|x t IH]; simpl; [reflexivity|].
  intros H; apply andb_true_iff in H as [Hx Ht].
  rewrite (IH Ht). apply negb_true_iff in Hx. rewrite Hx.
  now destruct t.
Qed.

Lemma rstrip_by_app_keep p (s t : string) :
  t <> "" -> Py.rstrip_by p t = t -> Py.rstrip_by p (s ++ t) = s ++ t.
Proof.
  intros Hne Ht; induction s as [|x s IH]; simpl; [exact Ht|].
  rewrite IH. destruct s; simpl; [|reflexivity].
  destruct t; [contradiction | reflexivity].
Qed.

Lemma rstrip_by_app_drop p (s t : string) :
  all_chars p t = true -> Py.rstrip_by p (s ++ t) = Py.rstrip_by p s.
Proof.
  intros Ht.
  assert (Hnil : Py.rstrip_by p t = "").
  { induction t as [|x t IH]; simpl in *; [reflexivity|].
    apply andb_true_iff in Ht as [Hx Ht]. now rewrite (IH Ht), Hx. }
  induction s as [|x s IH]; simpl; [exact Hnil | now rewrite IH].
Qed.

Lemma partition_space_app (a r : string) :
  all_chars (fun c => negb (Ascii.eqb c " ")) a = true ->
  Py.partition_space (a ++ String " " r) = (a, r).
Proof.
  induction a as [|x a IH]; simpl; [reflexivity|].
  intros H; apply andb_true_iff in H as [Hx Ha].
  apply negb_true_iff in Hx. now rewrite Hx, (IH Ha).
Qed.

Lemma rfind_space_none (t : string) :
  all_chars (fun c => negb (Ascii.eqb c " ")) t = true ->
  Py.rfind_space t = None.
Proof.
  induction t as [|x t IH]; simpl; [reflexivity|].
  intros H; apply andb_true_iff in H as [Hx Ht].
  apply negb_true_iff in Hx. now rewrite (IH Ht), Hx.
Qed.

Lemma rpartition_space_app (s t : string) :
  all_chars (fun c => negb (Ascii.eqb c " ")) t = true ->
  Py.rpartition_space (s ++ String " " t) = (s, t).
Proof.
  intros Ht. unfold Py.rpartition_space.
  assert (H : Py.rfind_space (s ++ String " " t) = Some (s, t)).
  { induction s as [|x s IH]; simpl.
    - now rewrite (rfind_space_none _ Ht).
    - now rewrite IH. }
  now rewrite H.
Qed.

Lemma split_single sep (a : string) :
  all_chars (fun c => negb (Ascii.eqb c sep)) a = true ->
  Py.split sep a = [a].
Proof.
  induction a as [|x a IH]; simpl; [reflexivity|].
  intros H; apply andb_true_iff in H as [Hx Ha].
  apply negb_true_iff in Hx. now rewrite Hx, (IH Ha).
Qed.

Lemma split_app sep (a r : string) :
  all_chars (fun c => negb (Ascii.eqb c sep)) a = true ->
  Py.split sep (a ++ String sep r) = a :: Py.split sep r.
Proof.
  induction a as [|x a IH]; simpl.
  - intros _. now rewrite Ascii.eqb_refl.
  - intros H; apply andb_true_iff in H as [Hx Ha].
    apply negb_true_iff in Hx. now rewrite Hx, (IH Ha).
Qed.

End StringFacts.

(** ** Digits and numbers *)

Ltac each_char c :=
  destruct c as [[] [] [] [] [] [] [] []]; try discriminate.

Lemma digit_char_class (c : ascii) :
  Py.is_digit c = true ->
  Py.int_space c = false /\ Ascii.eqb c " " = false /\ Ascii.eqb c "." = false
  /\ Ascii.eqb c "_" = false /\ Ascii.eqb c "-" = false
  /\ Ascii.eqb c "+" = false /\ Py.lower_char c = c
  /\ 0 <= Py.digit_val c <= 9 /\ Ascii.eqb c "a" = false.
Proof. each_char c; intros _; vm_compute; intuition discriminate. Qed.

Lemma digits_not_space (s : string) :
  all_chars Py.is_digit s = true ->
  all_chars (fun c => negb (Ascii.eqb c " ")) s = true.
Proof.
  apply all_chars_impl. intros c Hc.
  destruct (digit_char_class c Hc) as (_ & H & _). now rewrite H.
Qed.

Lemma digits_not_dot (s : string) :
  all_chars Py.is_digit s = true ->
  all_chars (fun c => negb (Ascii.eqb c ".")) s = true.
Proof.
  apply all_chars_impl. intros c Hc.
  destruct (digit_char_class c Hc) as (_ & _ & H & _). now rewrite H.
Qed.

Lemma digits_rstrip_space (s : string) :
  all_chars Py.is_digit s = true -> Py.rstrip_by Py.int_space s = s.
Proof.
  intros H. apply rstrip_by_keep_all. revert H. apply all_chars_impl.
  intros c Hc. destruct (digit_char_class c Hc) as (H & _). now rewrite H.
Qed.

Lemma digits_rstrip_non_digit (s : string) :
  all_chars Py.is_digit s = true -> Py.rstrip_by Utils.non_digit s = s.
Proof.
  intros H. apply rstrip_by_keep_all. revert H. apply all_chars_impl.
  intros c Hc. unfold Utils.non_digit. now rewrite Hc.
Qed.

Lemma int_digits_all (s : string) :
  all_chars Py.is_digit s = true ->
  forall acc seen,
    Py.int_digits acc seen s
    = match s with
      | EmptyString => if seen then Some acc else None
      | _ => Some (dec_value acc s)
      end.
Proof.
  induction s as [|c s IH]; simpl; [reflexivity|].
  intros H acc seen; apply andb_true_iff in H as [Hc Hs].
  rewrite Hc, (IH Hs). now destruct s.
Qed.

Lemma int_digits_junk (s : string) (x : ascii) (r : string) :
  all_chars Py.is_digit s = true ->
  Py.is_digit x = false -> Ascii.eqb x "_" = false ->
  forall acc seen, Py.int_digits acc seen (s ++ String x r) = None.
Proof.
  intros Hs Hx Hu. induction s as [|c s IH]; simpl; intros acc seen.
  - now rewrite Hx, Hu.
  - simpl in Hs. apply andb_true_iff in Hs as [Hc Hs]. now rewrite Hc, IH.
Qed.

(** [int] reads a numeral as the number it denotes. *)
Lemma int_numeral (s : string) : numeral s -> Py.int s = Ok (decimal s).
Proof.
  intros [Hd Hne]. unfold Py.int. rewrite (digits_rstrip_space _ Hd).
  destruct s as [|c s]; [contradiction|].
  pose proof Hd as Hd'. simpl in Hd'. apply andb_true_iff in Hd' as [Hc _].
  destruct (digit_char_class c Hc) as (Hsp & _ & _ & _ & Hm & Hp & _).
  simpl Py.lstrip_by. rewrite Hsp, Hm, Hp.
  now rewrite (int_digits_all _ Hd).
Qed.

Lemma dec_value_snoc (s : string) (d : ascii) :
  forall acc,
    dec_value acc (s ++ String d "") = 10 * dec_value acc s + Py.digit_val d.
Proof. induction s as [|c s IH]; simpl; intros acc; [reflexivity | apply IH]. Qed.

Lemma digit_char_ok (m : Z) :
  0 <= m <= 9 ->
  Py.is_digit (Py.digit_char m) = true /\ Py.digit_val (Py.digit_char m) = m.
Proof.
  intros H.
  assert (Hm : m = 0 \/ m = 1 \/ m = 2 \/ m = 3 \/ m = 4 \/ m = 5 \/ m = 6
               \/ m = 7 \/ m = 8 \/ m = 9) by lia.
  repeat (destruct Hm as [-> | Hm]; [split; reflexivity|]).
  subst m; split; reflexivity.
Qed.

(** The digits that [str_digits] writes denote the number it was given. *)
Lemma str_digits_spec (fuel : nat) :
  forall n acc,
    0 <= n < 10 ^ Z.of_nat (S fuel) ->
    exists ds, Py.str_digits fuel n acc = ds ++ acc
               /\ numeral ds /\ decimal ds = n.
Proof.
  induction fuel as [|f IH]; intros n acc Hn.
  - change (10 ^ Z.of_nat 1) with 10 in Hn.
    exists (String (Py.digit_char n) "").
    destruct (digit_char_ok n ltac:(lia)) as [Hd Hv].
    cbn [Py.str_digits]. rewrite Z.mod_small by lia.
    repeat split; simpl.
    + now rewrite Hd.
    + discriminate.
    + unfold decimal; simpl. rewrite Hv. lia.
  - cbn [Py.str_digits].
    assert (Hm : 0 <= n mod 10 <= 9) by (pose proof (Z.mod_pos_bound n 10); lia).
    destruct (digit_char_ok _ Hm) as [Hd Hv].
    destruct (n <? 10) eqn:Hlt.
    + exists (String (Py.digit_char (n mod 10)) "").
      apply Z.ltb_lt in Hlt.
      repeat split; simpl.
      * now rewrite Hd.
      * discriminate.
      * unfold decimal; simpl. rewrite Hv. rewrite Z.mod_small; lia.
    + apply Z.ltb_ge in Hlt.
      destruct (IH (n / 10) (String (Py.digit_char (n mod 10)) acc))
        as (ds & Heq & [Hds Hne] & Hval).
      { split; [apply Z.div_pos; lia|].
        apply Z.div_lt_upper_bound; [lia|].
        replace (Z.of_nat (S (S f))) with (Z.succ (Z.of_nat (S f))) in Hn by lia.
        rewrite Z.pow_succ_r in Hn by lia. lia. }
      exists (ds ++ String (Py.digit_char (n mod 10)) "").
      repeat split.
      * rewrite Heq, append_assoc. reflexivity.
      * rewrite all_chars_app, Hds. simpl. now rewrite Hd.
      * destruct ds; discriminate.
      * unfold decimal in *. rewrite dec_value_snoc, Hval, Hv.
        pose proof (Z.div_mod n 10). lia.
Qed.

Lemma log2_fuel (n : Z) : 0 <= n -> n < 10 ^ Z.of_nat (S (Z.to_nat (Z.log2 n))).
Proof.
  intros Hn. rewrite Nat2Z.inj_succ, Z2Nat.id by apply Z.log2_nonneg.
  destruct (Z.eq_dec n 0) as [->|Hz]; [reflexivity|].
  destruct (Z.log2_spec n ltac:(lia)) as [_ Hub].
  eapply Z.lt_le_trans; [exact Hub|].
  apply Z.pow_le_mono_l. lia.
Qed.

(** [str] of a non-negative integer is its numeral. *)
Lemma str_nonneg (n : Z) :
  0 <= n -> numeral (Py.str n) /\ decimal (Py.str n) = n.
Proof.
  intros Hn. unfold Py.str.
  destruct (n <? 0) eqn:E; [apply Z.ltb_lt in E; lia|].
  destruct (str_digits_spec _ n "" (conj Hn (log2_fuel n Hn)))
    as (ds & Heq & Hnum & Hval).
  rewrite Heq, append_nil_r. now split.
Qed.

(** [str] of a negative integer is a minus sign and a numeral. *)
Lemma str_neg (n : Z) :
  n < 0 ->
  exists ds, Py.str n = String "-" ds /\ numeral ds /\ decimal ds = - n.
Proof.
  intros Hn. unfold Py.str.
  destruct (n <? 0) eqn:E; [|apply Z.ltb_ge in E; lia].
  assert (H0 : 0 <= - n) by lia.
  destruct (str_digits_spec _ (- n) "" (conj H0 (log2_fuel _ H0)))
    as (ds & Heq & Hnum & Hval).
  exists ds. rewrite Heq, append_nil_r. split; [reflexivity | split; assumption].
Qed.

(** [int(str(n))] is [n]. *)
Lemma int_str (n : Z) : Py.int (Py.str n) = Ok n.
Proof.
  destruct (Z_lt_le_dec n 0) as [Hn|Hn].
  - destruct (str_neg n Hn) as (ds & -> & [Hd Hne] & Hval).
    unfold Py.int. change (String "-" ds) with ("-" ++ ds).
    rewrite (rstrip_by_app_keep Py.int_space "-" ds Hne
               (digits_rstrip_space _ Hd)).
    simpl. rewrite (int_digits_all _ Hd).
    destruct ds; [contradiction|]. unfold decimal in Hval. rewrite Hval.
    f_equal. lia.
  - destruct (str_nonneg n Hn) as [Hnum Hval].
    now rewrite (int_numeral _ Hnum), Hval.
Qed.

(** No string [str(n)] has a space or a dot in it. *)
Lemma str_no_space (n : Z) :
  all_chars (fun c => negb (Ascii.eqb c " ")) (Py.str n) = true.
Proof.
  destruct (Z_lt_le_dec n 0) as [Hn|Hn].
  - destruct (str_neg n Hn) as (ds & -> & [Hd _] & _).
    simpl. now apply digits_not_space.
  - destruct (str_nonneg n Hn) as [[Hd _] _]. now apply digits_not_space.
Qed.

Lemma str_no_dot (n : Z) :
  all_chars (fun c => negb (Ascii.eqb c ".")) (Py.str n) = true.
Proof.
  destruct (Z_lt_le_dec n 0) as [Hn|Hn].
  - destruct (str_neg n Hn) as (ds & -> & [Hd _] & _).
    simpl. now apply digits_not_dot.
  - destruct (str_nonneg n Hn) as [[Hd _] _]. now apply digits_not_dot.
Qed.

(** Every [str(n)] ends in a digit: stripping trailing non-digits keeps it. *)
Lemma str_rstrip_non_digit (n : Z) :
  Py.rstrip_by Utils.non_digit (Py.str n) = Py.str n.
Proof.
  destruct (Z_lt_le_dec n 0) as [Hn|Hn].
  - destruct (str_neg n Hn) as (ds & -> & [Hd Hne] & _).
    apply (rstrip_by_app_keep _ (String "-" "") ds Hne).
    now apply digits_rstrip_non_digit.
  - destruct (str_nonneg n Hn) as [[Hd _] _]. now apply digits_rstrip_non_digit.
Qed.

(** A closing parenthesis after [str(n)] is not an integer literal. *)
Lemma int_str_paren (n : Z) : Py.int (Py.str n ++ ")") = Raise ValueError.
Proof.
  unfold Py.int.
  assert (Hkeep : forall s, Py.rstrip_by Py.int_space (s ++ ")") = s ++ ")").
  { intros s. now apply rstrip_by_app_keep. }
  rewrite Hkeep.
  destruct (Z_lt_le_dec n 0) as [Hn|Hn].
  - destruct (str_neg n Hn) as (ds & -> & [Hd _] & _). simpl.
    now rewrite (int_digits_junk ds ")" "" Hd).
  - destruct (str_nonneg n Hn) as [[Hd Hne] _].
    destruct (Py.str n) as [|c s]; [contradiction|].
    pose proof Hd as Hd'. simpl in Hd'. apply andb_true_iff in Hd' as [Hc _].
    destruct (digit_char_class c Hc) as (Hsp & _ & _ & _ & Hm & Hp & _).
    cbn [append Py.lstrip_by]. rewrite Hsp, Hm, Hp.
    now rewrite (int_digits_junk (String c s) ")" "" Hd).
Qed.

(** ** [Entry.__init__] and [Entry.__str__] *)

Section EntryFacts.

Variable check_numeric : string -> bool.
Variable letter_to_number : string -> result Z.

Local Abbreviation Entry_init := (Entry_init check_numeric letter_to_number).

Lemma pad_loop_spec (l : list Z) :
  pad_loop 3 l = (l ++ repeat 0 (3 - List.length l)%nat)%list.
Proof.
  destruct l as [|a [|b [|c l]]]; try reflexivity.
  simpl. now rewrite app_nil_r.
Qed.

Lemma numeral_head (a : string) :
  numeral a -> exists c r, a = String c r /\ Py.is_digit c = true.
Proof.
  intros [Hd Hne]. destruct a as [|c r]; [contradiction|].
  simpl in Hd. apply andb_true_iff in Hd as [Hc _]. now exists c, r.
Qed.

Lemma digit_head_not_appendix (c : ascii) (r : string) :
  Py.is_digit c = true ->
  Py.startswith "appendix " (Py.lower (String c r)) = false
  /\ String.eqb (Py.lower (String c r)) "appendix" = false.
Proof.
  each_char c; intros _; split; reflexivity.
Qed.

(** A token that starts and ends with a digit is a section string with
    nothing to clean: the entry is built from its dotted components. *)
Lemma Entry_init_clean (c : ascii) (r ttl pg : string) (p : Z) :
  Py.is_digit c = true ->
  Py.rstrip_by Utils.non_digit (String c r) = String c r ->
  Py.int pg = Ok p ->
  Entry_init (String c r) ttl pg
  = (nums <- mapM Py.int (Py.split "." (String c r)) ;;
     chapter0 <- index (pad_loop 3 nums) 0 ;;
     section1 <- index (pad_loop 3 nums) 1 ;;
     subsection2 <- index (pad_loop 3 nums) 2 ;;
     Ok (mkEntry ttl p false chapter0 section1 subsection2)).
Proof.
  intros Hc Hr Hp. unfold Entry_init. rewrite Hp. cbn [bind].
  destruct (digit_head_not_appendix c r Hc) as [-> _].
  unfold Utils.strip_nonnumeric.
  replace (Py.lstrip_by Utils.non_digit (String c r)) with (String c r)
    by (simpl; unfold Utils.non_digit; now rewrite Hc).
  now rewrite Hr.
Qed.

Lemma Entry_init_three (a b c ttl pg : string) (p x y z : Z) :
  (exists h r, a = String h r /\ Py.is_digit h = true) ->
  all_chars (fun k => negb (Ascii.eqb k ".")) a = true ->
  all_chars (fun k => negb (Ascii.eqb k ".")) b = true ->
  all_chars (fun k => negb (Ascii.eqb k ".")) c = true ->
  c <> "" -> Py.rstrip_by Utils.non_digit c = c ->
  Py.int a = Ok x -> Py.int b = Ok y -> Py.int c = Ok z ->
  Py.int pg = Ok p ->
  Entry_init (a ++ "." ++ b ++ "." ++ c) ttl pg = Ok (mkEntry ttl p false x y z).
Proof.
  intros (h & r & -> & Hh) Ha Hb Hc Hne Hrs Hx Hy Hz Hp.
  change (String h r ++ "." ++ b ++ "." ++ c)
    with (String h (r ++ "." ++ b ++ "." ++ c)).
  rewrite (Entry_init_clean h _ ttl pg p Hh); [|
    change (String h (r ++ "." ++ b ++ "." ++ c))
      with (String h r ++ "." ++ b ++ "." ++ c);
    rewrite <- (append_assoc b "." c), <- (append_assoc (String h r) "." _);
    rewrite <- (append_assoc (String h r ++ ".") (b ++ ".") c);
    now apply rstrip_by_app_keep | exact Hp].
  change (String h (r ++ "." ++ b ++ "." ++ c))
    with (String h r ++ String "." (b ++ String "." c)).
  rewrite (split_app "." _ _ Ha), (split_app "." _ _ Hb), (split_single "." _ Hc).
  cbn [mapM]. rewrite Hx, Hy, Hz. reflexivity.
Qed.

Lemma Entry_init_two (a b ttl pg : string) (p x y : Z) :
  (exists h r, a = String h r /\ Py.is_digit h = true) ->
  all_chars (fun k => negb (Ascii.eqb k ".")) a = true ->
  all_chars (fun k => negb (Ascii.eqb k ".")) b = true ->
  b <> "" -> Py.rstrip_by Utils.non_digit b = b ->
  Py.int a = Ok x -> Py.int b = Ok y ->
  Py.int pg = Ok p ->
  Entry_init (a ++ "." ++ b) ttl pg = Ok (mkEntry ttl p false x y 0).
Proof.
  intros (h & r & -> & Hh) Ha Hb Hne Hrs Hx Hy Hp.
  change (String h r ++ "." ++ b) with (String h (r ++ "." ++ b)).
  rewrite (Entry_init_clean h _ ttl pg p Hh); [|
    change (String h (r ++ "." ++ b)) with (String h r ++ "." ++ b);
    rewrite <- (append_assoc (String h r) "." b);
    now apply rstrip_by_app_keep | exact Hp].
  change (String h (r ++ "." ++ b)) with (String h r ++ String "." b).
  rewrite (split_app "." _ _ Ha), (split_single "." _ Hb).
  cbn [mapM]. rewrite Hx, Hy. reflexivity.
Qed.

Lemma Entry_init_one (a ttl pg : string) (p x : Z) :
  numeral a -> Py.int a = Ok x -> Py.int pg = Ok p ->
  Entry_init a ttl pg = Ok (mkEntry ttl p false x 0 0).
Proof.
  intros Hnum Hx Hp.
  destruct (numeral_head a Hnum) as (h & r & -> & Hh).
  destruct Hnum as [Hd _].
  rewrite (Entry_init_clean h _ ttl pg p Hh);
    [| now apply digits_rstrip_non_digit | exact Hp].
  rewrite (split_single "." _ (digits_not_dot _ Hd)).
  cbn [mapM]. rewrite Hx. reflexivity.
Qed.

(** C3: a dotted numeric section string [a.b.c] gives chapter [a],
    section [b] and subsection [c]; [a.b] gives subsection 0; [a] alone
    gives section 0 and subsection 0; none of them is an appendix. *)
Theorem dotted_section_parse (a b c ttl pg : string) (p : Z) :
  numeral a -> numeral b -> numeral c -> Py.int pg = Ok p ->
  Entry_init (a ++ "." ++ b ++ "." ++ c) ttl pg
  = Ok (mkEntry ttl p false (decimal a) (decimal b) (decimal c))
  /\ Entry_init (a ++ "." ++ b) ttl pg
     = Ok (mkEntry ttl p false (decimal a) (decimal b) 0)
  /\ Entry_init a ttl pg = Ok (mkEntry ttl p false (decimal a) 0 0).
Proof.
  intros Ha Hb Hc Hp.
  pose proof (numeral_head a Ha) as Hha.
  pose proof (int_numeral a Ha) as Hia.
  pose proof (int_numeral b Hb) as Hib.
  pose proof (int_numeral c Hc) as Hic.
  destruct Ha as [Hda Hna], Hb as [Hdb Hnb], Hc as [Hdc Hnc].
  repeat split.
  - apply Entry_init_three; auto using digits_not_dot, digits_rstrip_non_digit.
  - apply Entry_init_two; auto using digits_not_dot, digits_rstrip_non_digit.
  - apply Entry_init_one; auto. now split.
Qed.

(** C2, as the code has it: the component list of a non-appendix section
    string with fewer than three components is padded with zeros at its
    end until it has exactly three elements, and chapter, section and
    subsection are these three elements in order. *)
Theorem section_padding_appends_zeros (sec ttl pg : string) (p : Z)
  (comps : list Z) :
  Py.startswith "appendix " (Py.lower sec) = false ->
  mapM Py.int (Py.split "." (Utils.strip_nonnumeric sec true true)) = Ok comps ->
  (List.length comps < 3)%nat ->
  Py.int pg = Ok p ->
  pad_loop 3 comps = (comps ++ repeat 0 (3 - List.length comps)%nat)%list
  /\ List.length (pad_loop 3 comps) = 3%nat
  /\ exists e,
       Entry_init sec ttl pg = Ok e
       /\ [chapter e; section e; subsection e] = pad_loop 3 comps
       /\ appendix e = false.
Proof.
  intros Happ Hcomps Hlen Hp.
  split; [apply pad_loop_spec|].
  unfold Entry_init. rewrite Hp, Happ, Hcomps. cbn [bind].
  destruct comps as [|x [|y [|z l]]]; [| | |simpl in Hlen; lia];
    (split; [reflexivity|]; eexists; split; [reflexivity|];
     split; reflexivity).
Qed.

End EntryFacts.

(** C2, as the spec words it, fails: the single component of ["7"] is the
    chapter, not the subsection. *)
Lemma section_left_pad_fails :
  Entry_init Utils.check_numeric Utils.letter_to_number "7" "Intro" "1"
  = Ok (mkEntry "Intro" 1 false 7 0 0)
  /\ ~ (forall e,
          Entry_init Utils.check_numeric Utils.letter_to_number "7" "Intro" "1"
          = Ok e ->
          [chapter e; section e; subsection e] = (repeat 0 2 ++ [7])%list).
Proof.
  split; [reflexivity|]. intros H.
  specialize (H _ eq_refl). discriminate H.
Qed.

Lemma section_padding_appends_zeros_witness :
  pad_loop 3 [7] = [7; 0; 0]
  /\ List.length (pad_loop 3 [7]) = 3%nat
  /\ exists e,
       Entry_init Utils.check_numeric Utils.letter_to_number "7" "Intro" "1"
       = Ok e
       /\ [chapter e; section e; subsection e] = pad_loop 3 [7]
       /\ appendix e = false.
Proof.
  apply (section_padding_appends_zeros Utils.check_numeric
           Utils.letter_to_number "7" "Intro" "1" 1 [7]).
  - reflexivity.
  - reflexivity.
  - simpl; lia.
  - reflexivity.
Defined.

Lemma dotted_section_parse_witness :
  Entry_init Utils.check_numeric Utils.letter_to_number "5.2.2" "Devices" "87"
  = Ok (mkEntry "Devices" 87 false 5 2 2)
  /\ Entry_init Utils.check_numeric Utils.letter_to_number "5.2" "Devices" "87"
     = Ok (mkEntry "Devices" 87 false 5 2 0)
  /\ Entry_init Utils.check_numeric Utils.letter_to_number "5" "Devices" "87"
     = Ok (mkEntry "Devices" 87 false 5 0 0).
Proof.
  apply (dotted_section_parse Utils.check_numeric Utils.letter_to_number
           "5" "2" "2" "Devices" "87" 87).
  - split; [reflexivity | discriminate].
  - split; [reflexivity | discriminate].
  - split; [reflexivity | discriminate].
  - reflexivity.
Defined.

(** ** Labels read back by the line splitter *)

Section LabelFacts.

Variable check_numeric : string -> bool.
Variable letter_to_number : string -> result Z.

Local Abbreviation Entry_init := (Entry_init check_numeric letter_to_number).

Lemma str_nonempty (n : Z) : Py.str n <> "".
Proof.
  destruct (Z_lt_le_dec n 0) as [Hn|Hn].
  - destruct (str_neg n Hn) as (ds & -> & _). discriminate.
  - now destruct (str_nonneg n Hn) as [[_ Hne] _].
Qed.

Lemma str_head_digit (n : Z) :
  0 <= n -> exists h r, Py.str n = String h r /\ Py.is_digit h = true.
Proof. intros Hn. apply numeral_head. now destruct (str_nonneg n Hn). Qed.

(** The page token of a label: the page and the closing parenthesis. *)
Lemma page_token_clean (n : Z) :
  Utils.strip_nonnumeric (Py.str n ++ ")") false true = Py.str n.
Proof.
  unfold Utils.strip_nonnumeric.
  rewrite (rstrip_by_app_drop Utils.non_digit (Py.str n) ")") by reflexivity.
  apply str_rstrip_non_digit.
Qed.

(** A line made of a token that starts with a digit, a title and a last
    word splits into these three. *)
Lemma split_line_three (tok ttl pgs : string) :
  (exists h r, tok = String h r /\ Py.is_digit h = true) ->
  all_chars (fun k => negb (Ascii.eqb k " ")) tok = true ->
  all_chars (fun k => negb (Ascii.eqb k " ")) pgs = true ->
  split_line (tok ++ " " ++ ttl ++ " " ++ pgs) = (tok, ttl, pgs).
Proof.
  intros (h & r & -> & Hh) Htok Hpgs. unfold split_line.
  change (String h r ++ " " ++ ttl ++ " " ++ pgs)
    with (String h r ++ String " " (ttl ++ String " " pgs)).
  rewrite (partition_space_app _ _ Htok).
  destruct (digit_head_not_appendix h r Hh) as [_ ->].
  now rewrite (rpartition_space_app _ _ Hpgs).
Qed.

Lemma page_token_no_space (n : Z) :
  all_chars (fun k => negb (Ascii.eqb k " ")) (Py.str n ++ ")") = true.
Proof. now rewrite all_chars_app, str_no_space. Qed.

(** C8, as the code has it: the label of a non-appendix entry below the
    chapter level (chapter not negative) splits into a section token
    that parses back to the chapter, section and subsection of the
    entry, and a page token that is the page followed by a closing
    parenthesis: it is no integer as it stands, and it is the page of
    the entry once its trailing non-numeric characters are stripped. *)
Theorem label_round_trip (e : Entry) :
  appendix e = false ->
  0 <= chapter e ->
  section e <> 0 \/ subsection e <> 0 ->
  exists tok ttl,
    split_line (Entry_str e) = (tok, ttl, Py.str (page e) ++ ")")
    /\ Py.int (Py.str (page e) ++ ")") = Raise ValueError
    /\ Entry_init tok ttl
         (Utils.strip_nonnumeric (Py.str (page e) ++ ")") false true)
       = Ok (mkEntry ttl (page e) false
                     (chapter e) (section e) (subsection e)).
Proof.
  intros Happ Hch Hlevel.
  pose proof (str_head_digit _ Hch) as (h & r & Hhr & Hh).
  assert (Hpg : Py.int (Utils.strip_nonnumeric (Py.str (page e) ++ ")")
                          false true) = Ok (page e))
    by (rewrite page_token_clean; apply int_str).
  destruct (Z.eq_dec (subsection e) 0) as [Hsub|Hsub].
  - (* a section-level entry *)
    assert (Hsec : section e <> 0) by (destruct Hlevel; congruence).
    exists (Py.str (chapter e) ++ "." ++ Py.str (section e)),
           ("- " ++ title e ++ " (page").
    assert (Hlabel : Entry_str e
              = (Py.str (chapter e) ++ "." ++ Py.str (section e)) ++ " "
                ++ ("- " ++ title e ++ " (page") ++ " "
                ++ (Py.str (page e) ++ ")")).
    { unfold Entry_str, truthy. rewrite Happ, Hsub.
      destruct (section e =? 0) eqn:E; [apply Z.eqb_eq in E; contradiction|].
      cbn [negb]. rewrite !append_assoc. reflexivity. }
    split; [|split].
    + rewrite Hlabel. apply split_line_three.
      * exists h, (r ++ "." ++ Py.str (section e)). now rewrite Hhr.
      * now rewrite all_chars_app, str_no_space; simpl; rewrite str_no_space.
      * apply page_token_no_space.
    + apply int_str_paren.
    + rewrite Hsub.
      apply Entry_init_two;
        eauto using str_no_dot, str_nonempty, str_rstrip_non_digit, int_str.
  - (* a subsection-level entry *)
    exists (Py.str (chapter e) ++ "." ++ Py.str (section e) ++ "."
            ++ Py.str (subsection e)),
           ("- " ++ title e ++ " (page").
    assert (Hlabel : Entry_str e
              = (Py.str (chapter e) ++ "." ++ Py.str (section e) ++ "."
                 ++ Py.str (subsection e)) ++ " "
                ++ ("- " ++ title e ++ " (page") ++ " "
                ++ (Py.str (page e) ++ ")")).
    { unfold Entry_str, truthy. rewrite Happ.
      destruct (subsection e =? 0) eqn:E; [apply Z.eqb_eq in E; contradiction|].
      cbn [negb]. rewrite !append_assoc. reflexivity. }
    split; [|split].
    + rewrite Hlabel. apply split_line_three.
      * exists h, (r ++ "." ++ Py.str (section e) ++ "."
                   ++ Py.str (subsection e)). now rewrite Hhr.
      * rewrite all_chars_app, str_no_space; simpl.
        rewrite all_chars_app, str_no_space; simpl. apply str_no_space.
      * apply page_token_no_space.
    + apply int_str_paren.
    + apply Entry_init_three;
        eauto using str_no_dot, str_nonempty, str_rstrip_non_digit, int_str.
Qed.

End LabelFacts.

(** C8, as the spec words it, fails: the page token of a label ends in a
    closing parenthesis, and building the entry raises. *)
Lemma label_round_trip_fails :
  Entry_of Utils.check_numeric Utils.letter_to_number
    (split_line (Entry_str (mkEntry "Methods" 12 false 2 1 0)))
  = Raise ValueError
  /\ ~ (exists e',
          Entry_of Utils.check_numeric Utils.letter_to_number
            (split_line (Entry_str (mkEntry "Methods" 12 false 2 1 0)))
          = Ok e'
          /\ chapter e' = 2 /\ section e' = 1 /\ subsection e' = 0
          /\ page e' = 12).
Proof.
  split; [reflexivity|]. intros (e' & H & _). discriminate H.
Qed.

Lemma label_round_trip_witness :
  exists tok ttl,
    split_line (Entry_str (mkEntry "Methods" 12 false 2 1 0))
    = (tok, ttl, Py.str 12 ++ ")")
    /\ Py.int (Py.str 12 ++ ")") = Raise ValueError
    /\ Entry_init Utils.check_numeric Utils.letter_to_number tok ttl
         (Utils.strip_nonnumeric (Py.str 12 ++ ")") false true)
       = Ok (mkEntry ttl 12 false 2 1 0).
Proof.
  apply (label_round_trip Utils.check_numeric Utils.letter_to_number
           (mkEntry "Methods" 12 false 2 1 0)).
  - reflexivity.
  - simpl; lia.
  - left; simpl; lia.
Defined.

(** ** [identify_toc] *)

Section DetectorFacts.

(** One iteration appends the lines of the page exactly when the page is
    over the threshold and is not a short page met before any page of the
    table of contents. *)
Lemma toc_step_appends_iff (toc_text : list string) (toc_found : bool)
  (pg : string) :
  toc_step (toc_text, toc_found) pg
  = ((toc_text ++ Py.splitlines pg)%list, true, Continue)
  <-> over_threshold (Py.splitlines pg) = true
      /\ (toc_found = true \/ (10 <= List.length (Py.splitlines pg))%nat).
Proof.
  unfold toc_step.
  destruct (over_threshold (Py.splitlines pg)) eqn:Hover.
  - destruct toc_found; cbn [negb andb].
    + split; [intros _; split; [reflexivity | now left] | reflexivity].
    + destruct (Nat.ltb_spec (List.length (Py.splitlines pg)) 10) as [Hlt|Hge].
      * split; [intros H; discriminate H | intros [_ [H|H]]; [discriminate | lia]].
      * split; [intros _; split; [reflexivity | now right] | reflexivity].
  - destruct toc_found; (split; [intros H; discriminate H | intros [H _]; discriminate H]).
Qed.

(** The threshold is strict. *)
Lemma over_threshold_iff (all_lines : list string) :
  over_threshold all_lines = true
  <-> 3 * Z.of_nat (List.length all_lines)
      < 4 * Z.of_nat (List.length (filter toc_line_shape all_lines)).
Proof. unfold over_threshold. apply Z.ltb_lt. Qed.

(** The loop only ever extends the text it has. *)
Lemma toc_loop_extends (pages : list string) :
  forall toc_text toc_found,
    exists tail,
      fst (snd (toc_loop pages (toc_text, toc_found)))
      = (toc_text ++ tail)%list.
Proof.
  induction pages as [|pg rest IH]; intros toc_text toc_found.
  - exists []. simpl. now rewrite app_nil_r.
  - cbn [toc_loop]. unfold toc_step.
    destruct (over_threshold (Py.splitlines pg)).
    + destruct (negb toc_found && (List.length (Py.splitlines pg) <? 10)%nat).
      * apply IH.
      * destruct (IH (toc_text ++ Py.splitlines pg)%list true) as [tail Ht].
        exists (Py.splitlines pg ++ tail)%list. now rewrite Ht, app_assoc.
    + destruct toc_found.
      * exists []. simpl. now rewrite app_nil_r.
      * apply IH.
Qed.

(** C9: a page that is over the threshold but has fewer than ten lines,
    met before any page of the table of contents was confirmed, is not
    appended and the scan goes on; so the text that [identify_toc]
    returns, when it is not empty, starts with the lines of a page of at
    least ten lines, and no page before that one contributed a line. *)
Theorem first_toc_page_has_ten_lines (pages : list string) :
  (forall toc_text pg,
      over_threshold (Py.splitlines pg) = true ->
      (List.length (Py.splitlines pg) < 10)%nat ->
      toc_step (toc_text, false) pg = ((toc_text, false), Continue))
  /\ (snd (identify_toc pages) = []
      \/ exists pre pg post tail,
           pages = (pre ++ pg :: post)%list
           /\ (forall q, In q pre ->
                 toc_step ([], false) q = (([], false), Continue))
           /\ over_threshold (Py.splitlines pg) = true
           /\ (10 <= List.length (Py.splitlines pg))%nat
           /\ snd (identify_toc pages) = (Py.splitlines pg ++ tail)%list).
Proof.
  split.
  - intros toc_text pg Hover Hlen. unfold toc_step. rewrite Hover.
    apply Nat.ltb_lt in Hlen. now rewrite Hlen.
  - assert (Hid : snd (identify_toc pages)
                  = fst (snd (toc_loop pages ([], false)))).
    { unfold identify_toc. now destruct (toc_loop pages ([], false)) as [o [t f]]. }
    rewrite !Hid. clear Hid.
    induction pages as [|pg rest IH]; [now left|].
    cbn [toc_loop].
    destruct (toc_step ([], false) pg) as [st' fl] eqn:Hstep.
    pose proof Hstep as Hstep'. unfold toc_step in Hstep'.
    destruct (over_threshold (Py.splitlines pg)) eqn:Hover.
    + cbn [negb andb] in Hstep'.
      destruct (Nat.ltb_spec (List.length (Py.splitlines pg)) 10) as [Hlt|Hge].
      * injection Hstep' as <- <-.
        destruct IH as [IH | (pre & p & post & tail & -> & Hpre & Ho & Hl & Ht)];
          [now left | right].
        exists (pg :: pre), p, post, tail. repeat split; auto.
        intros q [<- | Hq]; [exact Hstep | now apply Hpre].
      * injection Hstep' as <- <-. right.
        destruct (toc_loop_extends rest ([] ++ Py.splitlines pg)%list true)
          as [tail Ht].
        exists [], pg, rest, tail. repeat split; auto.
        intros q [].
    + injection Hstep' as <- <-.
      destruct IH as [IH | (pre & p & post & tail & -> & Hpre & Ho & Hl & Ht)];
        [now left | right].
      exists (pg :: pre), p, post, tail. repeat split; auto.
      intros q [<- | Hq]; [exact Hstep | now apply Hpre].
Qed.

(** While no page was kept, the scan has not stopped early: an empty
    result comes with the report that no table of contents was found. *)
Lemma toc_loop_empty_reports (pages : list string) :
  fst (snd (toc_loop pages ([], false))) = [] ->
  fst (toc_loop pages ([], false)) = ["No table of contents found!"].
Proof.
  induction pages as [|pg rest IH]; [reflexivity|].
  cbn [toc_loop]. unfold toc_step.
  destruct (over_threshold (Py.splitlines pg)).
  - cbn [negb andb].
    destruct (Nat.ltb_spec (List.length (Py.splitlines pg)) 10) as [Hlt|Hge];
      [exact IH|].
    intros H.
    destruct (toc_loop_extends rest ([] ++ Py.splitlines pg)%list true)
      as [tail Ht].
    rewrite H in Ht. simpl in Ht. symmetry in Ht.
    apply app_eq_nil in Ht as [Ht _]. rewrite Ht in Hge. simpl in Hge. lia.
  - exact IH.
Qed.

End DetectorFacts.

Lemma first_toc_page_has_ten_lines_witness :
  toc_step (["kept"], false) (String "a" (String "1" ""))
  = ((["kept"], false), Continue).
Proof.
  apply (proj1 (first_toc_page_has_ten_lines [])
           ["kept"] (String "a" (String "1" ""))).
  - reflexivity.
  - simpl; lia.
Defined.

(** Four lines of five over the threshold: kept once a page was found. *)
Example four_of_five_counted :
  let pg := Py.join (String "010" "") ["a 1"; "b 2"; "c 3"; "d 4"; "none"] in
  toc_step (["kept"], true) pg
  = ((["kept"; "a 1"; "b 2"; "c 3"; "d 4"; "none"], true), Continue).
Proof. reflexivity. Qed.

(** Three lines of four are not over it: the scan stops there. *)
Example three_of_four_not_counted :
  let pg := Py.join (String "010" "") ["a 1"; "b 2"; "c 3"; "none"] in
  toc_step (["kept"], true) pg = ((["kept"], true), Break)
  /\ toc_step ([], false) pg = (([], false), Continue).
Proof. split; reflexivity. Qed.

(** C4: the pattern of the code accepts a line with a digit after a
    non-digit anywhere, not only at its end.  A page of ten lines of
    which none ends in a digit is kept as a page of the table of
    contents. *)
Theorem toc_line_shape_not_anchored :
  let pg := ten_lines "Part 1 of the preface" in
  List.length (Py.splitlines pg) = 10%nat
  /\ filter ends_in_digit_after_non_digit (Py.splitlines pg) = []
  /\ filter toc_line_shape (Py.splitlines pg) = Py.splitlines pg
  /\ snd (identify_toc [pg]) = Py.splitlines pg.
Proof. repeat split; reflexivity. Qed.

(** ** The stitcher and [parse_toc] *)

Section StitcherFacts.

Variable check_numeric : string -> bool.
Variable letter_to_number : string -> result Z.

Local Abbreviation Entry_init := (Entry_init check_numeric letter_to_number).
Local Abbreviation Entry_of := (Entry_of check_numeric letter_to_number).
Local Abbreviation stitch_step := (stitch_step check_numeric letter_to_number).
Local Abbreviation stitch := (stitch check_numeric letter_to_number).
Local Abbreviation parse_toc := (parse_toc check_numeric letter_to_number).
Local Abbreviation write_bookmarks_toc :=
  (write_bookmarks_toc check_numeric letter_to_number).

(** C5: with a buffer and a line whose section and page tokens are both
    numeric, the buffer is joined into one text, its trailing non-numeric
    characters are stripped, the text is split again and made an entry;
    then the line is made an entry of its own; both are appended, in this
    order, and the buffer is cleared.  If either entry cannot be built
    the exception goes through. *)
Theorem backtracking_repair (contents : list Entry)
  (b0 b1 b2 line sec ttl pg : string) :
  split_line line = (sec, ttl, pg) ->
  check_numeric sec = true ->
  check_numeric pg = true ->
  stitch_step (contents, Some (b0, b1, b2)) line
  = (e1 <- Entry_of (split_line
                       (Utils.strip_nonnumeric
                          (b0 ++ " " ++ b1 ++ " " ++ b2) false true)) ;;
     e2 <- Entry_init sec ttl pg ;;
     Ok ((contents ++ [e1; e2])%list, None))
  /\ (forall contents' buf',
        stitch_step (contents, Some (b0, b1, b2)) line = Ok (contents', buf') ->
        buf' = None
        /\ exists e1 e2,
             Entry_of (split_line
                         (Utils.strip_nonnumeric
                            (b0 ++ " " ++ b1 ++ " " ++ b2) false true)) = Ok e1
             /\ Entry_init sec ttl pg = Ok e2
             /\ contents' = (contents ++ [e1; e2])%list).
Proof.
  intros Hsplit Hsec Hpg.
  assert (Heq : stitch_step (contents, Some (b0, b1, b2)) line
                = (e1 <- Entry_of (clean_buffer (b0, b1, b2)) ;;
                   e2 <- Entry_init sec ttl pg ;;
                   Ok ((contents ++ [e1; e2])%list, None))).
  { unfold stitch_step. now rewrite Hsplit, Hsec, Hpg. }
  split; [exact Heq|].
  intros contents' buf' H. rewrite Heq in H. unfold clean_buffer in H.
  destruct (Entry_of _) as [e1|x]; [|discriminate H].
  cbn [bind] in H.
  destruct (Entry_init sec ttl pg) as [e2|x]; [|discriminate H].
  cbn [bind] in H. injection H as <- <-.
  split; [reflexivity|]. now exists e1, e2.
Qed.

(** A line that leaves the buffer filled makes no entry of its own: the
    entries are those before it, with at most the repaired entry of the
    buffer it replaced. *)
Lemma buffered_line_makes_no_entry (contents contents' : list Entry)
  (buf : buffer) (line : string) (b' : string * string * string) :
  stitch_step (contents, buf) line = Ok (contents', Some b') ->
  contents' = contents
  \/ exists b e,
       buf = Some b /\ Entry_of (clean_buffer b) = Ok e
       /\ contents' = (contents ++ [e])%list
       /\ b' = split_line line.
Proof.
  unfold stitch_step.
  destruct (split_line line) as [[sec ttl] pg].
  destruct buf as [[[b0 b1] b2]|];
    destruct (check_numeric sec), (check_numeric pg); intros H.
  - destruct (Entry_of (clean_buffer (b0, b1, b2))) as [e1|x];
      [|discriminate H].
    cbn [bind] in H.
    destruct (Entry_init sec ttl pg); discriminate H.
  - destruct (Entry_of (clean_buffer (b0, b1, b2))) as [e1|x] eqn:E;
      [|discriminate H].
    cbn [bind] in H. injection H as <- <-. right.
    now exists (b0, b1, b2), e1.
  - destruct (Entry_init b0 _ pg); discriminate H.
  - injection H as <- _. now left.
  - destruct (Entry_init sec ttl pg); discriminate H.
  - injection H as <- _. now left.
  - injection H as <- _. now left.
  - injection H as <- _. now left.
Qed.

(** The calibrator raises only on an empty list. *)
Lemma offset_loop_total (pages : list string) (h : heap) (c0 : loc)
  (rest : list loc) :
  forall i, exists r, offset_loop i pages h (c0 :: rest) = Ok r.
Proof.
  induction pages as [|pg ps IH]; intros i; simpl.
  - now eexists.
  - destruct (Py.contains _ _); [now eexists | apply IH].
Qed.

(** What is in the buffer when the lines end is dropped: the result of
    [parse_toc] is the calibration of the finished entries alone, and
    with at least one finished entry it is returned normally. *)
Lemma parse_toc_drops_buffer (pages toc_text : list string)
  (contents : list Entry) (buf : buffer) :
  stitch toc_text ([], None) = Ok (contents, buf) ->
  parse_toc pages toc_text
  = (r <- offset_first_page pages (alloc contents)
                            (seq 0 (List.length contents)) ;;
     Ok (option_map (map (fst r)) (snd r)))
  /\ (contents <> [] -> exists v, parse_toc pages toc_text = Ok v).
Proof.
  intros H. unfold parse_toc. rewrite H. cbn [bind fst].
  split; [reflexivity|]. intros Hne.
  destruct contents as [|e es]; [contradiction|].
  cbn [List.length seq]. unfold offset_first_page.
  destruct (offset_loop_total pages (alloc (e :: es)) 0%nat
              (seq 1 (List.length es)) 0) as [r Hr].
  unfold loc in Hr. rewrite Hr. now eexists.
Qed.

(** With no line to parse and at least one page, [parse_toc] raises. *)
Lemma parse_toc_empty_raises (pg : string) (rest : list string) :
  parse_toc (pg :: rest) [] = Raise IndexError.
Proof. reflexivity. Qed.

(** A document without pages gives [None], not an empty list. *)
Lemma parse_toc_no_pages : parse_toc [] [] = Ok None.
Proof. reflexivity. Qed.

(** Whenever the detector finds nothing in a document that has a page,
    the pipeline prints its report and then raises. *)
Lemma empty_toc_raises (pg : string) (rest : list string) :
  snd (identify_toc (pg :: rest)) = [] ->
  fst (identify_toc (pg :: rest))
  = ["Scanning for table of contents..."; "No table of contents found!"]
  /\ write_bookmarks_toc (pg :: rest) = Raise IndexError.
Proof.
  intros H. split.
  - unfold identify_toc in *.
    pose proof (toc_loop_empty_reports (pg :: rest)) as Hrep.
    destruct (toc_loop (pg :: rest) ([], false)) as [o [t f]].
    simpl in *. now rewrite Hrep.
  - unfold write_bookmarks_toc. rewrite H. reflexivity.
Qed.

(** C1: a document of one page of prose has no table of contents; the
    detector prints its report and returns no line, and parsing that
    empty text raises [IndexError] in [offset_first_page]. *)
Theorem no_toc_document_raises :
  identify_toc ["Preface"]
  = (["Scanning for table of contents..."; "No table of contents found!"], [])
  /\ parse_toc ["Preface"] [] = Raise IndexError
  /\ write_bookmarks_toc ["Preface"] = Raise IndexError.
Proof. repeat split; reflexivity. Qed.

End StitcherFacts.

Lemma backtracking_repair_witness :
  stitch_step Utils.check_numeric Utils.letter_to_number
    ([], Some ("5.2.2", "Displacement Measurement Devices 87vi", "Contents"))
    "5.3 Tensile Stress Strain Curves 88"
  = Ok ([mkEntry "Displacement Measurement Devices" 87 false 5 2 2;
         mkEntry "Tensile Stress Strain Curves" 88 false 5 3 0], None).
Proof.
  apply (proj1 (backtracking_repair Utils.check_numeric Utils.letter_to_number
                  [] "5.2.2" "Displacement Measurement Devices 87vi" "Contents"
                  "5.3 Tensile Stress Strain Curves 88"
                  "5.3" "Tensile Stress Strain Curves" "88"
                  eq_refl eq_refl eq_refl)).
Defined.

(** C10: a page of ten lines whose only numbered line opens an entry that
    nothing closes.  The stitcher ends with that line in its buffer and
    no entry, and [parse_toc] raises [IndexError] on the empty list. *)
Theorem buffered_last_line_raises (letter_to_number : string -> result Z) :
  let pg := Py.join (String "010" "")
              (repeat "Printed in year 2001" 9 ++ ["2.1 Methods continued"]) in
  snd (identify_toc [pg]) = Py.splitlines pg
  /\ stitch Utils.check_numeric letter_to_number (Py.splitlines pg) ([], None)
     = Ok ([], Some ("2.1", "Methods", "continued"))
  /\ write_bookmarks_toc Utils.check_numeric letter_to_number [pg]
     = Raise IndexError.
Proof. repeat split; reflexivity. Qed.

(** ** [offset_first_page] *)

Section CalibratorFacts.

Lemma set_page_same (h : heap) (r : loc) (p : Z) :
  set_page h r p r = with_page (h r) p.
Proof. unfold set_page. now rewrite Nat.eqb_refl. Qed.

Lemma set_page_other (h : heap) (r r' : loc) (p : Z) :
  r' <> r -> set_page h r p r' = h r'.
Proof.
  intros Hne. unfold set_page.
  destruct (Nat.eqb_spec r' r); [contradiction | reflexivity].
Qed.

(** The inner loop leaves the objects that are not in the list alone. *)
Lemma add_to_pages_outside (delta : Z) (contents : list loc) :
  forall h r, ~ In r contents -> add_to_pages delta contents h r = h r.
Proof.
  induction contents as [|c cs IH]; intros h r Hr; [reflexivity|].
  unfold add_to_pages in *. cbn [fold_left].
  rewrite IH by (intros Hin; apply Hr; now right).
  apply set_page_other. intros ->. apply Hr. now left.
Qed.

(** It moves the page of every object that the list names once. *)
Lemma add_to_pages_inside (delta : Z) (contents : list loc) :
  NoDup contents ->
  forall h r, In r contents ->
    add_to_pages delta contents h r = with_page (h r) (page (h r) + delta).
Proof.
  induction contents as [|c cs IH]; intros Hnd h r Hr; [destruct Hr|].
  inversion Hnd as [|? ? Hc Hcs]; subst.
  change (add_to_pages delta (c :: cs) h)
    with (add_to_pages delta cs (set_page h c (page (h c) + delta))).
  destruct Hr as [<- | Hr].
  - rewrite add_to_pages_outside by exact Hc. apply set_page_same.
  - rewrite (IH Hcs _ _ Hr).
    rewrite set_page_other; [reflexivity|].
    intros ->. contradiction.
Qed.

(** The loop stops at the first page whose head contains the title. *)
Lemma offset_loop_found (ttl : string) (h : heap) (c0 : loc) (rest : list loc) :
  title (h c0) = ttl ->
  forall pages i k pg,
    nth_error pages i = Some pg ->
    Py.contains ttl (page_head pg) = true ->
    (forall j q, (j < i)%nat -> nth_error pages j = Some q ->
                 Py.contains ttl (page_head q) = false) ->
    offset_loop k pages h (c0 :: rest)
    = Ok (add_to_pages (k + Z.of_nat i - 1) (c0 :: rest) h, Some (c0 :: rest)).
Proof.
  intros Httl. induction pages as [|p ps IH]; intros i k pg Hnth Hpg Hbefore.
  - destruct i; discriminate Hnth.
  - cbn [offset_loop]. rewrite Httl. destruct i as [|i].
    + injection Hnth as ->. rewrite Hpg. do 3 f_equal. simpl. lia.
    + rewrite (Hbefore 0%nat p) by (simpl; auto; lia).
      rewrite (IH i (k + 1) pg Hnth Hpg).
      * do 3 f_equal. lia.
      * intros j q Hj Hq. apply (Hbefore (S j) q); [lia | exact Hq].
Qed.

Lemma offset_loop_not_found (ttl : string) (h : heap) (c0 : loc)
  (rest : list loc) :
  title (h c0) = ttl ->
  forall pages k,
    (forall q, In q pages -> Py.contains ttl (page_head q) = false) ->
    offset_loop k pages h (c0 :: rest) = Ok (h, None).
Proof.
  intros Httl. induction pages as [|p ps IH]; intros k Hnone; [reflexivity|].
  cbn [offset_loop]. rewrite Httl, (Hnone p) by now left.
  apply IH. intros q Hq. apply Hnone. now right.
Qed.

(** Each pass of the inner loop over an object adds the offset to its
    page and leaves its other fields alone. *)
Lemma add_to_pages_fields (delta : Z) (contents : list loc) :
  forall h r,
    page (add_to_pages delta contents h r)
    = page (h r) + Z.of_nat (count_occ Nat.eq_dec contents r) * delta
    /\ title (add_to_pages delta contents h r) = title (h r)
    /\ appendix (add_to_pages delta contents h r) = appendix (h r)
    /\ chapter (add_to_pages delta contents h r) = chapter (h r)
    /\ section (add_to_pages delta contents h r) = section (h r)
    /\ subsection (add_to_pages delta contents h r) = subsection (h r).
Proof.
  induction contents as [|c cs IH]; intros h r.
  - simpl. repeat split. lia.
  - change (add_to_pages delta (c :: cs) h)
      with (add_to_pages delta cs (set_page h c (page (h c) + delta))).
    destruct (IH (set_page h c (page (h c) + delta)) r)
      as (Hp & Ht & Ha & Hc & Hs & Hss).
    rewrite Hp, Ht, Ha, Hc, Hs, Hss. clear IH Hp Ht Ha Hc Hs Hss.
    cbn [count_occ]. unfold set_page.
    destruct (Nat.eq_dec c r) as [->|Hne].
    + rewrite Nat.eqb_refl. cbn [with_page page title appendix chapter
                                   section subsection].
      repeat split. rewrite Nat2Z.inj_succ. lia.
    + destruct (Nat.eqb_spec r c) as [->|_]; [contradiction|].
      repeat split.
Qed.

(** C7, as the code has it, for every non-empty list of entries.  If
    page [i] is the first whose first three lines, joined, contain the
    title of the first entry, the calibrator returns the list and has
    added [i - 1] to the page of every object once for each time the list
    holds it (so exactly [i - 1] for an object the list holds once, and
    nothing for an object it does not hold); no other field of any object
    changes.  If no page does, it changes nothing, raises nothing and
    returns [None]. *)
Theorem offset_first_page_spec (pages : list string) (h : heap) (c0 : loc)
  (rest : list loc) :
  (forall i pg,
      nth_error pages i = Some pg ->
      Py.contains (title (h c0)) (page_head pg) = true ->
      (forall j q, (j < i)%nat -> nth_error pages j = Some q ->
                   Py.contains (title (h c0)) (page_head q) = false) ->
      exists h',
        offset_first_page pages h (c0 :: rest) = Ok (h', Some (c0 :: rest))
        /\ (forall r,
              page (h' r)
              = page (h r)
                + Z.of_nat (count_occ Nat.eq_dec (c0 :: rest) r)
                  * (Z.of_nat i - 1))
        /\ (forall r,
              count_occ Nat.eq_dec (c0 :: rest) r = 1%nat ->
              page (h' r) = page (h r) + (Z.of_nat i - 1))
        /\ (forall r,
              title (h' r) = title (h r)
              /\ appendix (h' r) = appendix (h r)
              /\ chapter (h' r) = chapter (h r)
              /\ section (h' r) = section (h r)
              /\ subsection (h' r) = subsection (h r)))
  /\ ((forall q, In q pages ->
         Py.contains (title (h c0)) (page_head q) = false) ->
      offset_first_page pages h (c0 :: rest) = Ok (h, None)).
Proof.
  split.
  - intros i pg Hnth Hpg Hbefore.
    exists (add_to_pages (Z.of_nat i - 1) (c0 :: rest) h).
    split; [|split; [|split]].
    + unfold offset_first_page.
      now rewrite (offset_loop_found _ h c0 rest eq_refl pages i 0 pg).
    + intros r. apply add_to_pages_fields.
    + intros r Hr.
      destruct (add_to_pages_fields (Z.of_nat i - 1) (c0 :: rest) h r)
        as (Hp & _).
      rewrite Hp, Hr. lia.
    + intros r.
      destruct (add_to_pages_fields (Z.of_nat i - 1) (c0 :: rest) h r)
        as (_ & Hrest).
      exact Hrest.
  - intros Hnone. unfold offset_first_page.
    now apply (offset_loop_not_found _ h c0 rest eq_refl).
Qed.

End CalibratorFacts.

(** C7, as the spec words it, fails on a list that holds an entry
    twice: the inner loop meets the object twice and adds the offset
    twice. *)
Lemma offset_twice_listed_fails :
  (exists h',
      offset_first_page ["Preface"; "Contents"; "Chapter 1 Introduction"]
        (alloc example_contents) [0; 0]%nat
      = Ok (h', Some [0; 0]%nat)
      /\ page (alloc example_contents 0%nat) = 1 /\ page (h' 0%nat) = 3)
  /\ ~ (forall h',
          offset_first_page ["Preface"; "Contents"; "Chapter 1 Introduction"]
            (alloc example_contents) [0; 0]%nat
          = Ok (h', Some [0; 0]%nat) ->
          page (h' 0%nat) = page (alloc example_contents 0%nat) + (2 - 1)).
Proof.
  split.
  - eexists. split; [reflexivity|]. split; reflexivity.
  - intros H. specialize (H _ eq_refl). vm_compute in H. discriminate H.
Qed.

Lemma offset_first_page_spec_witness :
  (exists h',
      offset_first_page ["Preface"; "Contents"; "Chapter 1 Introduction"]
        (alloc example_contents) [0; 1; 2]%nat
      = Ok (h', Some [0; 1; 2]%nat)
      /\ (forall r,
            page (h' r)
            = page (alloc example_contents r)
              + Z.of_nat (count_occ Nat.eq_dec [0; 1; 2]%nat r)
                * (Z.of_nat 2 - 1))
      /\ (forall r,
            count_occ Nat.eq_dec [0; 1; 2]%nat r = 1%nat ->
            page (h' r) = page (alloc example_contents r) + (Z.of_nat 2 - 1))
      /\ (forall r,
            title (h' r) = title (alloc example_contents r)
            /\ appendix (h' r) = appendix (alloc example_contents r)
            /\ chapter (h' r) = chapter (alloc example_contents r)
            /\ section (h' r) = section (alloc example_contents r)
            /\ subsection (h' r) = subsection (alloc example_contents r)))
  /\ offset_first_page ["Preface"; "Contents"]
       (alloc example_contents) [0; 1; 2]%nat
     = Ok (alloc example_contents, None).
Proof.
  split.
  - apply (proj1 (offset_first_page_spec
                    ["Preface"; "Contents"; "Chapter 1 Introduction"]
                    (alloc example_contents) 0%nat [1; 2]%nat)
             2%nat "Chapter 1 Introduction").
    + reflexivity.
    + reflexivity.
    + intros j q Hj Hq.
      destruct j as [|[|j]]; [| | lia]; injection Hq as <-; reflexivity.
  - apply (proj2 (offset_first_page_spec ["Preface"; "Contents"]
                    (alloc example_contents) 0%nat [1; 2]%nat)).
    intros q [<- | [<- | []]]; reflexivity.
Defined.

(** The whole of [parse_toc] on the three lines of a small table. *)
Example parse_toc_ex :
  parse_toc Utils.check_numeric Utils.letter_to_number
    ["Preface"; "Contents"; "Chapter 1 Introduction"]
    ["1 Introduction 1"; "1.1 Background 3"; "1.1.1 Prior Work 5"]
  = Ok (Some [mkEntry "Introduction" 2 false 1 0 0;
              mkEntry "Background" 4 false 1 1 0;
              mkEntry "Prior Work" 6 false 1 1 1]).
Proof. reflexivity. Qed.

(** ** The groupings of [add_bookmarks_to_pdf] *)

Section HierarchyFacts.

Variable contents : list Entry.

Lemma truthy_true (n : Z) : truthy n = true <-> n <> 0.
Proof.
  unfold truthy. rewrite negb_true_iff. apply Z.eqb_neq.
Qed.

Lemma truthy_false (n : Z) : truthy n = false <-> n = 0.
Proof.
  unfold truthy. rewrite negb_false_iff. apply Z.eqb_eq.
Qed.

Lemma chapter_level_In (e : Entry) :
  In e (chapter_level contents)
  <-> In e contents /\ appendix e = false /\ section e = 0 /\ subsection e = 0.
Proof.
  unfold chapter_level. rewrite filter_In. unfold any. cbn [existsb].
  rewrite negb_true_iff, !orb_false_iff, !truthy_false. tauto.
Qed.

(** The condition of a section-level group. *)
Lemma section_group_In (chap e : Entry) :
  In e (filter (fun entry =>
                  all [chapter entry =? chapter chap;
                       truthy (section entry);
                       negb (any [truthy (subsection entry); appendix entry])])
               contents)
  <-> In e contents /\ chapter e = chapter chap /\ appendix e = false
      /\ section e <> 0 /\ subsection e = 0.
Proof.
  rewrite filter_In. unfold all, any. cbn [forallb existsb].
  rewrite !andb_true_iff, negb_true_iff, !orb_false_iff.
  rewrite Z.eqb_eq, truthy_true, truthy_false. tauto.
Qed.

(** The condition of a subsection-level group. *)
Lemma subsection_group_In (chap sec e : Entry) :
  In e (filter (fun entry =>
                  all [chapter entry =? chapter chap;
                       section entry =? section sec;
                       truthy (subsection entry);
                       negb (appendix entry)])
               contents)
  <-> In e contents /\ chapter e = chapter chap /\ section e = section sec
      /\ appendix e = false /\ subsection e <> 0.
Proof.
  rewrite filter_In. unfold all. cbn [forallb].
  rewrite !andb_true_iff, negb_true_iff, !Z.eqb_eq, truthy_true. tauto.
Qed.

Lemma nth_error_enumerate {A : Type} (l : list A) :
  forall s i,
    nth_error (combine (seq s (List.length l)) l) i
    = option_map (fun x => ((s + i)%nat, x)) (nth_error l i).
Proof.
  induction l as [|x l IH]; intros s i.
  - now destruct i.
  - destruct i as [|i]; cbn [List.length seq combine nth_error option_map].
    + now rewrite Nat.add_0_r.
    + rewrite IH. now rewrite Nat.add_succ_r.
Qed.

Lemma nth_in_nth_error {A : Type} (l : list (list A)) (i : nat) (x : A) :
  In x (nth i l []) -> exists g, nth_error l i = Some g /\ nth i l [] = g.
Proof.
  intros H. destruct (nth_error l i) as [g|] eqn:E.
  - exists g. split; [reflexivity|]. now apply nth_error_nth.
  - apply nth_error_None in E. rewrite nth_overflow in H by exact E.
    destruct H.
Qed.

(** Group [i] of the section level belongs to chapter entry [i]. *)
Lemma section_level_nth (i : nat) (g : list Entry) :
  nth_error (section_level contents) i = Some g ->
  exists chap,
    nth_error (chapter_level contents) i = Some chap
    /\ g = filter (fun entry =>
                     all [chapter entry =? chapter chap;
                          truthy (section entry);
                          negb (any [truthy (subsection entry);
                                     appendix entry])])
                  contents.
Proof.
  unfold section_level. rewrite nth_error_map.
  destruct (nth_error (chapter_level contents) i) as [chap|]; [|discriminate].
  intros H. injection H as <-. now exists chap.
Qed.

(** Group [i] of the subsection level has one group for each entry of
    group [i] of the section level. *)
Lemma subsection_level_nth (i : nat) (gs : list (list Entry)) :
  nth_error (subsection_level contents) i = Some gs ->
  exists chap,
    nth_error (chapter_level contents) i = Some chap
    /\ gs = map (fun sec =>
                   filter (fun entry =>
                             all [chapter entry =? chapter chap;
                                  section entry =? section sec;
                                  truthy (subsection entry);
                                  negb (appendix entry)])
                          contents)
                (nth i (section_level contents) []).
Proof.
  unfold subsection_level, enumerate.
  rewrite nth_error_map, nth_error_enumerate.
  destruct (nth_error (chapter_level contents) i) as [chap|] eqn:E;
    [|discriminate].
  cbn [option_map Nat.add]. intros H. injection H as <-.
  exists chap. split; [reflexivity|]. f_equal.
  (* the filter on the chapter of the section entries keeps them all *)
  assert (Hg : nth_error (section_level contents) i
               = Some (nth i (section_level contents) [])).
  { unfold section_level. rewrite nth_error_map, E. cbn [option_map].
    f_equal. symmetry. apply nth_error_nth.
    now rewrite nth_error_map, E. }
  destruct (section_level_nth _ _ Hg) as (chap' & E' & Hfil).
  rewrite E in E'. injection E' as <-.
  rewrite Hfil at 1. rewrite <- Hfil.
  apply forallb_filter_id. rewrite forallb_forall.
  intros sec Hsec. rewrite Hfil in Hsec.
  apply section_group_In in Hsec. apply Z.eqb_eq. tauto.
Qed.


(** Who is in group [i] of the section level. *)
Lemma section_level_In (i : nat) (e : Entry) :
  In e (nth i (section_level contents) [])
  <-> exists chap,
        nth_error (chapter_level contents) i = Some chap
        /\ In e contents /\ chapter e = chapter chap /\ appendix e = false
        /\ section e <> 0 /\ subsection e = 0.
Proof.
  split.
  - intros H. destruct (nth_in_nth_error _ _ _ H) as (g & Hg & Hnth).
    destruct (section_level_nth _ _ Hg) as (chap & Hchap & ->).
    rewrite Hnth in H. apply section_group_In in H. now exists chap.
  - intros (chap & Hchap & H).
    assert (Hg : nth_error (section_level contents) i
                 = Some (filter (fun entry =>
                     all [chapter entry =? chapter chap;
                          truthy (section entry);
                          negb (any [truthy (subsection entry);
                                     appendix entry])]) contents)).
    { unfold section_level. now rewrite nth_error_map, Hchap. }
    rewrite (nth_error_nth _ _ _ Hg). now apply section_group_In.
Qed.

(** Who is in group [j] of group [i] of the subsection level. *)
Lemma subsection_level_In (i j : nat) (e : Entry) :
  In e (nth j (nth i (subsection_level contents) []) [])
  <-> exists chap sec,
        nth_error (chapter_level contents) i = Some chap
        /\ nth_error (nth i (section_level contents) []) j = Some sec
        /\ In e contents /\ chapter e = chapter chap
        /\ section e = section sec /\ appendix e = false
        /\ subsection e <> 0.
Proof.
  split.
  - intros H. destruct (nth_in_nth_error _ _ _ H) as (g & Hg & Hnth).
    destruct (nth_error (subsection_level contents) i) as [gs|] eqn:Egs.
    + destruct (subsection_level_nth _ _ Egs) as (chap & Hchap & Hgs).
      rewrite (nth_error_nth _ _ _ Egs) in Hg, H.
      rewrite Hgs, nth_error_map in Hg.
      destruct (nth_error (nth i (section_level contents) []) j)
        as [sec|] eqn:Esec; [|discriminate Hg].
      injection Hg as <-.
      rewrite Hgs in H.
      assert (Hj : nth_error
                (map (fun sec0 =>
                   filter (fun entry =>
                     all [chapter entry =? chapter chap;
                          section entry =? section sec0;
                          truthy (subsection entry);
                          negb (appendix entry)]) contents)
                   (nth i (section_level contents) [])) j
              = Some (filter (fun entry =>
                     all [chapter entry =? chapter chap;
                          section entry =? section sec;
                          truthy (subsection entry);
                          negb (appendix entry)]) contents))
        by now rewrite nth_error_map, Esec.
      rewrite (nth_error_nth _ _ _ Hj) in H.
      apply subsection_group_In in H. now exists chap, sec.
    + apply nth_error_None in Egs.
      rewrite nth_overflow in Hg by exact Egs. now destruct j.
  - intros (chap & sec & Hchap & Hsec & H).
    assert (Egs : exists gs, nth_error (subsection_level contents) i = Some gs).
    { destruct (nth_error (subsection_level contents) i) eqn:E; [now eexists|].
      apply nth_error_None in E.
      unfold subsection_level, enumerate in E.
      rewrite length_map, length_combine, length_seq, Nat.min_id in E.
      apply nth_error_None in E. congruence. }
    destruct Egs as [gs Egs].
    destruct (subsection_level_nth _ _ Egs) as (chap' & Hchap' & Hgs).
    rewrite Hchap in Hchap'. injection Hchap' as <-.
    rewrite (nth_error_nth _ _ _ Egs), Hgs.
    assert (Hj : nth_error
              (map (fun sec0 =>
                 filter (fun entry =>
                   all [chapter entry =? chapter chap;
                        section entry =? section sec0;
                        truthy (subsection entry);
                        negb (appendix entry)]) contents)
                 (nth i (section_level contents) [])) j
            = Some (filter (fun entry =>
                   all [chapter entry =? chapter chap;
                        section entry =? section sec;
                        truthy (subsection entry);
                        negb (appendix entry)]) contents))
      by now rewrite nth_error_map, Hsec.
    rewrite (nth_error_nth _ _ _ Hj). now apply subsection_group_In.
Qed.


End HierarchyFacts.



(** ** The calibration inside [parse_toc] *)

Section PipelineFacts.

Variable check_numeric : string -> bool.
Variable letter_to_number : string -> result Z.

Lemma alloc_read (contents : list Entry) (f : Entry -> Entry) :
  forall h',
    (forall r, In r (seq 0 (List.length contents)) -> h' r = f (alloc contents r)) ->
    map h' (seq 0 (List.length contents)) = map f contents.
Proof.
  intros h' Hh. apply nth_error_ext. intros n.
  rewrite !nth_error_map.
  destruct (Nat.lt_ge_cases n (List.length contents)) as [Hlt|Hge].
  - rewrite nth_error_seq, (proj2 (Nat.ltb_lt _ _) Hlt). cbn [option_map Nat.add].
    rewrite Hh by (apply in_seq; lia).
    unfold alloc.
    destruct (nth_error contents n) as [e|] eqn:E.
    + now rewrite (nth_error_nth _ _ _ E).
    + apply nth_error_None in E. lia.
  - rewrite (proj2 (nth_error_None _ _)) by (rewrite length_seq; lia).
    now rewrite (proj2 (nth_error_None contents n)) by lia.
Qed.

(** X11: the entries that the stitcher made are listed once each, so
    the calibration inside [parse_toc] moves the page of every one of
    them by the index of the first matching page, less one, and changes
    nothing else of them. *)
Lemma parse_toc_calibrated (pages toc_text : list string) (e0 : Entry)
  (es : list Entry) (buf : buffer) (i : nat) (pg : string) :
  stitch check_numeric letter_to_number toc_text ([], None)
  = Ok (e0 :: es, buf) ->
  nth_error pages i = Some pg ->
  Py.contains (title e0) (page_head pg) = true ->
  (forall j q, (j < i)%nat -> nth_error pages j = Some q ->
               Py.contains (title e0) (page_head q) = false) ->
  parse_toc check_numeric letter_to_number pages toc_text
  = Ok (Some (map (fun e =>
                     mkEntry (title e) (page e + (Z.of_nat i - 1))
                             (appendix e) (chapter e) (section e)
                             (subsection e))
                  (e0 :: es))).
Proof.
  intros Hst Hnth Hpg Hbefore. unfold parse_toc. rewrite Hst. cbn [bind fst].
  assert (Hnd : NoDup (0%nat :: seq 1 (List.length es)))
    by (change (NoDup (seq 0 (S (List.length es)))); apply seq_NoDup).
  pose proof (offset_loop_found (title e0) (alloc (e0 :: es)) 0%nat
                (seq 1 (List.length es)) eq_refl pages i 0 pg
                Hnth Hpg Hbefore) as Heq.
  change (seq 0 (List.length (e0 :: es)))
    with (0%nat :: seq 1 (List.length es)).
  unfold offset_first_page. unfold loc in Heq. rewrite Heq.
  cbn [bind fst snd option_map]. do 2 f_equal.
  apply (alloc_read (e0 :: es)
           (fun e => mkEntry (title e) (page e + (Z.of_nat i - 1))
                             (appendix e) (chapter e) (section e)
                             (subsection e))).
  intros r Hr.
  rewrite add_to_pages_inside;
    [reflexivity
    | change (NoDup (seq 0 (S (List.length es)))); apply seq_NoDup
    | exact Hr].
Qed.

End PipelineFacts.

(* ================================================================== *)
(** * Part III: further properties of the code *)
(* ================================================================== *)

(** ** [split_line] *)

Section SplitLineFacts.

Lemma spaces_app (a b : string) : spaces (a ++ b) = (spaces a + spaces b)%nat.
Proof. induction a as [|c a IH]; simpl; [reflexivity | rewrite IH; lia]. Qed.


(** [partition] cuts at the first space. *)
Lemma partition_space_spec (s : string) :
  spaces (fst (Py.partition_space s)) = 0%nat
  /\ (spaces s = 0%nat -> Py.partition_space s = (s, ""))
  /\ ((0 < spaces s)%nat ->
      s = fst (Py.partition_space s) ++ " " ++ snd (Py.partition_space s)
      /\ spaces s = S (spaces (snd (Py.partition_space s)))).
Proof.
  induction s as [|c s (IH1 & IH2 & IH3)]; simpl.
  - repeat split; intros; lia.
  - destruct (Ascii.eqb c " ") eqn:Hc; simpl.
    + apply Ascii.eqb_eq in Hc. subst c.
      repeat split; intros; try reflexivity; lia.
    + destruct (Py.partition_space s) as [h t]; simpl in *.
      rewrite Hc. simpl. split; [exact IH1|]. split.
      * intros H. specialize (IH2 H). now injection IH2 as -> ->.
      * intros H. destruct (IH3 H) as [Heq Hsp]. split; [|exact Hsp].
        now rewrite Heq at 1.
Qed.

(** [rpartition] cuts at the last space. *)
Lemma rpartition_space_spec (s : string) :
  spaces (snd (Py.rpartition_space s)) = 0%nat
  /\ (spaces s = 0%nat -> Py.rpartition_space s = ("", s))
  /\ ((0 < spaces s)%nat ->
      s = fst (Py.rpartition_space s) ++ " " ++ snd (Py.rpartition_space s)).
Proof.
  unfold Py.rpartition_space.
  assert (H : match Py.rfind_space s with
              | Some (h, t) => s = h ++ " " ++ t /\ spaces t = 0%nat
                               /\ (0 < spaces s)%nat
              | None => spaces s = 0%nat
              end).
  { induction s as [|c s IH]; simpl; [reflexivity|].
    destruct (Py.rfind_space s) as [[h t]|].
    - destruct IH as (Heq & Ht & Hs). repeat split; auto; [|lia].
      now rewrite Heq at 1.
    - destruct (Ascii.eqb c " ") eqn:Hc; simpl.
      + apply Ascii.eqb_eq in Hc. subst c. repeat split; auto; lia.
      + exact IH. }
  destruct (Py.rfind_space s) as [[h t]|]; simpl.
  - destruct H as (Heq & Ht & Hs). repeat split; auto. intros; lia.
  - repeat split; auto. intros; lia.
Qed.

(** X1: a line of at least three words whose first word is not the
    appendix keyword is cut, without loss, at its first and at its last
    space: the section token and the page token have no space, and the
    three parts joined by spaces are the line. *)
Theorem split_line_rejoin (line : string) :
  (2 <= spaces line)%nat ->
  String.eqb (Py.lower (fst (Py.partition_space line))) "appendix" = false ->
  exists s t p,
    split_line line = (s, t, p)
    /\ line = s ++ " " ++ t ++ " " ++ p
    /\ spaces s = 0%nat /\ spaces p = 0%nat.
Proof.
  intros Hsp Hkw. unfold split_line.
  destruct (partition_space_spec line) as (H1 & _ & H3).
  destruct (H3 ltac:(lia)) as [Hline Hcount].
  destruct (Py.partition_space line) as [h t]; simpl in *.
  rewrite Hkw.
  destruct (rpartition_space_spec t) as (R1 & _ & R3).
  specialize (R3 ltac:(lia)).
  destruct (Py.rpartition_space t) as [t' p]; simpl in *.
  exists h, t', p. repeat split; auto.
  now rewrite Hline at 1; rewrite R3 at 1.
Qed.

End SplitLineFacts.

Lemma split_line_rejoin_witness :
  exists s t p,
    split_line "5.3 Tensile Stress Strain Curves 88" = (s, t, p)
    /\ "5.3 Tensile Stress Strain Curves 88" = s ++ " " ++ t ++ " " ++ p
    /\ spaces s = 0%nat /\ spaces p = 0%nat.
Proof.
  apply (split_line_rejoin "5.3 Tensile Stress Strain Curves 88").
  - simpl; lia.
  - reflexivity.
Defined.

(** ** [Entry.__init__] on what [split_line] gives it *)

Section EntryMoreFacts.

Variable check_numeric : string -> bool.
Variable letter_to_number : string -> result Z.

Local Abbreviation Entry_init := (Entry_init check_numeric letter_to_number).
Local Abbreviation Entry_of := (Entry_of check_numeric letter_to_number).

Lemma lower_char_space (c : ascii) :
  Ascii.eqb (Py.lower_char c) " " = Ascii.eqb c " ".
Proof. each_char c; reflexivity. Qed.

Lemma spaces_lower (s : string) : spaces (Py.lower s) = spaces s.
Proof.
  induction s as [|c s IH]; simpl; [reflexivity|].
  now rewrite lower_char_space, IH.
Qed.

Lemma lower_app (a b : string) : Py.lower (a ++ b) = Py.lower a ++ Py.lower b.
Proof. induction a as [|c a IH]; simpl; [reflexivity | now rewrite IH]. Qed.

Lemma lower_length (s : string) : String.length (Py.lower s) = String.length s.
Proof. induction s as [|c s IH]; simpl; [reflexivity | now rewrite IH]. Qed.

Lemma drop_app (a b : string) : Py.drop (String.length a) (a ++ b) = b.
Proof. induction a as [|c a IH]; simpl; [now destruct b | exact IH]. Qed.

Lemma prefix_app (p r : string) : String.prefix p (p ++ r) = true.
Proof.
  induction p as [|c p IH]; simpl; [now destruct r|].
  destruct (ascii_dec c c) as [_|Hne]; [exact IH | contradiction].
Qed.

Lemma prefix_spaces (p : string) :
  forall s, String.prefix p s = true -> (spaces p <= spaces s)%nat.
Proof.
  induction p as [|c p IH]; intros s H; simpl; [lia|].
  destruct s as [|d s]; simpl in H; [discriminate|].
  destruct (ascii_dec c d) as [<-|]; [|discriminate].
  specialize (IH s H). simpl. lia.
Qed.

(** After the padding the three indexings are in range. *)
Lemma index_pad (l : list Z) :
  exists a b c,
    index (pad_loop 3 l) 0 = Ok a /\ index (pad_loop 3 l) 1 = Ok b
    /\ index (pad_loop 3 l) 2 = Ok c.
Proof.
  destruct l as [|a [|b [|c l]]]; simpl;
    do 3 eexists; repeat split; reflexivity.
Qed.

(** The appendix flag of an entry depends on its section string alone. *)
Lemma Entry_init_appendix_flag (sec ttl pg : string) (e : Entry) :
  Entry_init sec ttl pg = Ok e ->
  appendix e = Py.startswith "appendix " (Py.lower sec).
Proof.
  unfold Entry_init. destruct (Py.int pg); [|discriminate]. cbn [bind].
  match goal with |- bind ?m _ = _ -> _ => destruct m as [nums|] end;
    [|discriminate].
  cbn [bind]. destruct (index_pad nums) as (x0 & x1 & x2 & -> & -> & ->).
  cbn [bind]. intros H. now injection H as <-.
Qed.

(** X2: an entry made from a line is an appendix entry exactly when the
    first word of the line is the appendix keyword, in any case. *)
Theorem appendix_flag_of_line (line : string) (e : Entry) :
  Entry_of (split_line line) = Ok e ->
  appendix e
  = String.eqb (Py.lower (fst (Py.partition_space line))) "appendix".
Proof.
  unfold split_line.
  destruct (partition_space_spec line) as (H1 & _).
  destruct (Py.partition_space line) as [h t]; simpl in *.
  destruct (String.eqb (Py.lower h) "appendix") eqn:Hkw.
  - destruct (Py.partition_space t) as [s2 t2].
    destruct (Py.rpartition_space t2) as [t3 p3]. intros H.
    rewrite (Entry_init_appendix_flag _ _ _ _ H).
    change (String.prefix "appendix " ("appendix " ++ Py.lower s2) = true).
    apply prefix_app.
  - destruct (Py.rpartition_space t) as [t3 p3]. intros H.
    rewrite (Entry_init_appendix_flag _ _ _ _ H).
    destruct (Py.startswith "appendix " (Py.lower h)) eqn:Hpre; [|reflexivity].
    apply prefix_spaces in Hpre. rewrite spaces_lower, H1 in Hpre.
    simpl in Hpre. lia.
Qed.

Lemma pad_loop_full (l : list Z) :
  (3 <= List.length l)%nat -> pad_loop 3 l = l.
Proof.
  intros H. destruct l as [|a [|b [|c l]]]; simpl in H; try lia. reflexivity.
Qed.

(** X3: a non-appendix section string with more than three components
    keeps the first three: the deeper levels are dropped without an
    error. *)
Theorem deeper_levels_dropped (sec ttl pg : string) (p : Z) (comps : list Z) :
  Py.startswith "appendix " (Py.lower sec) = false ->
  mapM Py.int (Py.split "." (Utils.strip_nonnumeric sec true true)) = Ok comps ->
  (3 <= List.length comps)%nat ->
  Py.int pg = Ok p ->
  exists e,
    Entry_init sec ttl pg = Ok e
    /\ [chapter e; section e; subsection e] = firstn 3 comps
    /\ appendix e = false /\ title e = ttl /\ page e = p.
Proof.
  intros Happ Hcomps Hlen Hp. unfold Entry_init.
  rewrite Hp, Happ, Hcomps. cbn [bind].
  rewrite pad_loop_full by exact Hlen.
  destruct comps as [|a [|b [|c l]]]; simpl in Hlen; try lia.
  eexists; split; [reflexivity|]. repeat split.
Qed.

(** X4: a section string made of the appendix keyword in any case, a
    space, a label that the classifier rejects and the letter conversion
    turns into [n], a dot and a numeral [y] that the classifier accepts
    is the appendix entry of chapter [n] and section [y]. *)
Theorem lettered_appendix_parse (kw x y ttl pg : string) (p n : Z) :
  Py.lower kw = "appendix " ->
  all_chars (fun k => negb (Ascii.eqb k ".")) x = true ->
  numeral y ->
  check_numeric x = false -> letter_to_number x = Ok n ->
  check_numeric y = true ->
  Py.int pg = Ok p ->
  Entry_init (kw ++ x ++ "." ++ y) ttl pg
  = Ok (mkEntry ttl p true n (decimal y) 0).
Proof.
  intros Hkw Hx Hy Hcx Hlx Hcy Hp. unfold Entry_init.
  rewrite Hp. cbn [bind].
  assert (Hpre : Py.startswith "appendix " (Py.lower (kw ++ x ++ "." ++ y))
                 = true).
  { unfold Py.startswith. rewrite lower_app, Hkw. apply prefix_app. }
  rewrite Hpre.
  assert (Hlen : String.length kw = 9%nat)
    by (rewrite <- lower_length, Hkw; reflexivity).
  rewrite <- Hlen, drop_app.
  change (x ++ "." ++ y) with (x ++ String "." y).
  rewrite (split_app "." _ _ Hx).
  rewrite (split_single "." y (digits_not_dot _ (proj1 Hy))).
  cbn [mapM]. rewrite Hcx, Hlx, Hcy, (int_numeral y Hy). reflexivity.
Qed.

End EntryMoreFacts.

Lemma appendix_flag_of_line_witness :
  appendix (mkEntry "Tables" 120 true 2 1 0)
  = String.eqb (Py.lower (fst (Py.partition_space "APPENDIX B.1 Tables 120")))
               "appendix".
Proof.
  apply (appendix_flag_of_line Utils.check_numeric Utils.letter_to_number
           "APPENDIX B.1 Tables 120").
  reflexivity.
Defined.

Lemma deeper_levels_dropped_witness :
  exists e,
    Entry_init Utils.check_numeric Utils.letter_to_number "1.2.3.4" "Deep" "9"
    = Ok e
    /\ [chapter e; section e; subsection e] = firstn 3 [1; 2; 3; 4]
    /\ appendix e = false /\ title e = "Deep" /\ page e = 9.
Proof.
  apply (deeper_levels_dropped Utils.check_numeric Utils.letter_to_number
           "1.2.3.4" "Deep" "9" 9 [1; 2; 3; 4]).
  - reflexivity.
  - reflexivity.
  - simpl; lia.
  - reflexivity.
Defined.

Lemma lettered_appendix_parse_witness :
  Entry_init Utils.check_numeric Utils.letter_to_number
    ("Appendix " ++ "B" ++ "." ++ "1") "Tables" "120"
  = Ok (mkEntry "Tables" 120 true 2 (decimal "1") 0).
Proof.
  apply (lettered_appendix_parse Utils.check_numeric Utils.letter_to_number
           "Appendix " "B" "1" "Tables" "120" 120 2).
  - reflexivity.
  - reflexivity.
  - split; [reflexivity | discriminate].
  - reflexivity.
  - reflexivity.
  - reflexivity.
  - reflexivity.
Defined.

(** ** More on [identify_toc] *)

Section DetectorMoreFacts.

(** Once a page was kept, the loop keeps the pages over the threshold
    that follow and stops at the first page that is not. *)
Lemma toc_loop_found_run (pages : list string) :
  forall toc_text,
    exists run post,
      pages = (run ++ post)%list
      /\ (forall pg, In pg run -> over_threshold (Py.splitlines pg) = true)
      /\ fst (snd (toc_loop pages (toc_text, true)))
         = (toc_text ++ List.concat (map Py.splitlines run))%list
      /\ (post = []
          \/ exists q post', post = q :: post'
                             /\ over_threshold (Py.splitlines q) = false).
Proof.
  induction pages as [|pg rest IH]; intros toc_text.
  - exists [], []. simpl. rewrite app_nil_r.
    split; [reflexivity|]. split; [intros pg []|]. split; [reflexivity|].
    now left.
  - cbn [toc_loop]. unfold toc_step.
    destruct (over_threshold (Py.splitlines pg)) eqn:Hover; cbn [negb andb].
    + destruct (IH (toc_text ++ Py.splitlines pg)%list)
        as (run & post & -> & Hrun & Htxt & Hpost).
      exists (pg :: run), post.
      split; [reflexivity|]. split; [|split; [|exact Hpost]].
      * intros q [<- | Hq]; [exact Hover | now apply Hrun].
      * rewrite Htxt. simpl. now rewrite app_assoc.
    + exists [], (pg :: rest). simpl. rewrite app_nil_r.
      split; [reflexivity|]. split; [intros q []|]. split; [reflexivity|].
      right. now exists pg, rest.
Qed.

(** X5: the text that [identify_toc] returns, when it is not empty, is
    the lines of one run of consecutive pages, all over the threshold and
    the first of at least ten lines; the run ends at the end of the
    document or just before the first page that is not over the
    threshold, and nothing after that page is looked at. *)
Theorem toc_is_contiguous_run (pages : list string) :
  snd (identify_toc pages) = []
  \/ exists pre first run post,
       pages = (pre ++ (first :: run) ++ post)%list
       /\ (10 <= List.length (Py.splitlines first))%nat
       /\ (forall pg, In pg (first :: run) ->
             over_threshold (Py.splitlines pg) = true)
       /\ snd (identify_toc pages)
          = List.concat (map Py.splitlines (first :: run))
       /\ (post = []
           \/ exists q post', post = q :: post'
                              /\ over_threshold (Py.splitlines q) = false).
Proof.
  assert (Hid : snd (identify_toc pages)
                = fst (snd (toc_loop pages ([], false)))).
  { unfold identify_toc. now destruct (toc_loop pages ([], false)) as [o [t f]]. }
  rewrite !Hid. clear Hid.
  induction pages as [|pg rest IH]; [now left|].
  cbn [toc_loop]. unfold toc_step.
  destruct (over_threshold (Py.splitlines pg)) eqn:Hover; cbn [negb andb].
  - destruct (Nat.ltb_spec (List.length (Py.splitlines pg)) 10) as [Hlt|Hge].
    + destruct IH as [IH | (pre & f & run & post & -> & H10 & Hrun & Ht & Hp)];
        [now left | right].
      exists (pg :: pre), f, run, post.
      split; [reflexivity|]. split; [exact H10|]. split; [exact Hrun|].
      split; [exact Ht | exact Hp].
    + right.
      destruct (toc_loop_found_run rest ([] ++ Py.splitlines pg)%list)
        as (run & post & -> & Hrun & Htxt & Hpost).
      exists [], pg, run, post.
      split; [reflexivity|]. split; [exact Hge|]. split; [|split].
      * intros q [<- | Hq]; [exact Hover | now apply Hrun].
      * exact Htxt.
      * exact Hpost.
  - destruct IH as [IH | (pre & f & run & post & -> & H10 & Hrun & Ht & Hp)];
      [now left | right].
    exists (pg :: pre), f, run, post.
    split; [reflexivity|]. split; [exact H10|]. split; [exact Hrun|].
    split; [exact Ht | exact Hp].
Qed.

Lemma toc_loop_all_over (pages : list string) :
  (forall pg, In pg pages ->
     over_threshold (Py.splitlines pg) = true
     /\ (10 <= List.length (Py.splitlines pg))%nat) ->
  forall toc_text toc_found,
    toc_loop pages (toc_text, toc_found)
    = (["No table of contents found!"],
       ((toc_text ++ List.concat (map Py.splitlines pages))%list,
        match pages with [] => toc_found | _ => true end)).
Proof.
  induction pages as [|pg rest IH]; intros Hall toc_text toc_found.
  - simpl. now rewrite app_nil_r.
  - cbn [toc_loop]. unfold toc_step.
    destruct (Hall pg (or_introl eq_refl)) as [Hover Hlen].
    rewrite Hover. apply Nat.ltb_ge in Hlen. rewrite Hlen, andb_false_r.
    rewrite IH by (intros q Hq; apply Hall; now right).
    simpl. rewrite app_assoc. now destruct rest.
Qed.

(** X6: the report that no table of contents was found is printed
    whenever the loop is not left by [break].  In a document whose pages
    are all over the threshold (each of at least ten lines) every line is
    returned as table of contents, and the report is printed all the
    same. *)
Theorem report_printed_although_found (pages : list string) :
  pages <> [] ->
  (forall pg, In pg pages ->
     over_threshold (Py.splitlines pg) = true
     /\ (10 <= List.length (Py.splitlines pg))%nat) ->
  identify_toc pages
  = (["Scanning for table of contents..."; "No table of contents found!"],
     List.concat (map Py.splitlines pages))
  /\ snd (identify_toc pages) <> [].
Proof.
  intros Hne Hall.
  assert (H : identify_toc pages
              = (["Scanning for table of contents...";
                  "No table of contents found!"],
                 List.concat (map Py.splitlines pages))).
  { unfold identify_toc. now rewrite (toc_loop_all_over pages Hall). }
  split; [exact H|]. rewrite H. cbn [snd].
  destruct pages as [|pg rest]; [contradiction|].
  destruct (Hall pg (or_introl eq_refl)) as [_ Hlen].
  simpl. destruct (Py.splitlines pg); [simpl in Hlen; lia | discriminate].
Qed.

Lemma linebreak_class (c : ascii) :
  Py.is_linebreak c = false -> Ascii.eqb c "010" = false.
Proof. each_char c; reflexivity. Qed.

(** No line that [splitlines] returns has a line feed in it. *)
Lemma splitlines_from_no_newline (n : nat) :
  forall s cur,
    (String.length s <= n)%nat ->
    all_chars (fun k => negb (Ascii.eqb k "010")) cur = true ->
    forall l, In l (Py.splitlines_from cur s) ->
              all_chars (fun k => negb (Ascii.eqb k "010")) l = true.
Proof.
  induction n as [|n IH]; intros s cur Hlen Hcur l Hl.
  - destruct s; [|simpl in Hlen; lia].
    simpl in Hl. destruct cur; [destruct Hl|].
    destruct Hl as [<- | []]. exact Hcur.
  - destruct s as [|c r].
    + simpl in Hl. destruct cur; [destruct Hl|].
      destruct Hl as [<- | []]. exact Hcur.
    + simpl in Hlen. cbn [Py.splitlines_from] in Hl.
      destruct (Ascii.eqb c "013").
      * assert (Hl' : l = cur
                      \/ (exists r', (String.length r' <= n)%nat
                            /\ In l (Py.splitlines_from "" r'))).
        { destruct r as [|d r'].
          - destruct Hl as [<- | Hl]; [now left | right].
            exists "". split; [simpl; lia | exact Hl].
          - destruct (Ascii.eqb_spec d "010") as [->|Hd].
            + destruct Hl as [<- | Hl]; [now left | right].
              exists r'. split; [simpl in Hlen; lia | exact Hl].
            + assert (Hl2 : In l (cur :: Py.splitlines_from "" (String d r'))).
              { revert Hl. clear -Hd.
                destruct d as [[] [] [] [] [] [] [] []]; try (intros H; exact H).
                now contradiction Hd. }
              destruct Hl2 as [<- | Hl2]; [now left | right].
              exists (String d r'). split; [lia | exact Hl2]. }
        destruct Hl' as [-> | (r' & Hr' & Hin)]; [exact Hcur|].
        now apply (IH r' "" Hr' eq_refl).
      * destruct (Py.is_linebreak c) eqn:Hlb.
        -- destruct Hl as [<- | Hl]; [exact Hcur|].
           apply (IH r "" ltac:(lia) eq_refl _ Hl).
        -- apply (IH r (cur ++ String c "") ltac:(lia)); [|exact Hl].
           rewrite all_chars_app, Hcur. simpl.
           now rewrite (linebreak_class c Hlb).
Qed.

Lemma numbered_line_has_shape (s : string) :
  all_chars (fun k => negb (Ascii.eqb k "010")) s = true ->
  ends_with_number s = true -> toc_line_shape s = true.
Proof.
  induction s as [|c r IH]; [discriminate|].
  intros Hnl Hends. simpl in Hnl. apply andb_true_iff in Hnl as [Hc Hr].
  cbn [ends_with_number] in Hends.
  destruct r as [|d r'].
  - simpl in Hends. rewrite andb_false_r in Hends. discriminate Hends.
  - change (toc_line_shape (String c (String d r')))
      with ((negb (Py.is_digit c) && Py.is_digit d)
            || (negb (Ascii.eqb c "010") && toc_line_shape (String d r'))).
    apply orb_true_iff in Hends as [Hends | Hends].
    + apply andb_true_iff in Hends as [Hends _].
      apply andb_true_iff in Hends as [Hcd Hall].
      simpl in Hall. apply andb_true_iff in Hall as [Hd _].
      now rewrite Hcd, Hd.
    + rewrite Hc, (IH Hr Hends). cbn [andb]. apply orb_true_r.
Qed.

Lemma filter_length_le {A : Type} (f g : A -> bool) (l : list A) :
  (forall x, In x l -> f x = true -> g x = true) ->
  (List.length (filter f l) <= List.length (filter g l))%nat.
Proof.
  induction l as [|x l IH]; intros H; simpl; [lia|].
  specialize (IH (fun y Hy => H y (or_intror Hy))).
  destruct (f x) eqn:Hf.
  - rewrite (H x (or_introl eq_refl) Hf). simpl. lia.
  - destruct (g x); simpl; lia.
Qed.

(** X13: the pattern of the detector accepts every line of a page that
    ends with a number (a non-digit followed by one or more digits to the
    end of the line), so a page of which more than three quarters of the
    lines end that way is over the threshold. *)
Theorem anchored_threshold_suffices (pg : string) :
  3 * Z.of_nat (List.length (Py.splitlines pg))
  < 4 * Z.of_nat (List.length (filter ends_with_number (Py.splitlines pg))) ->
  over_threshold (Py.splitlines pg) = true.
Proof.
  intros H. apply over_threshold_iff.
  assert (Hle : (List.length (filter ends_with_number (Py.splitlines pg))
                 <= List.length (filter toc_line_shape (Py.splitlines pg)))%nat).
  { apply filter_length_le. intros l Hl.
    apply numbered_line_has_shape.
    apply (splitlines_from_no_newline (String.length pg) pg ""
             (Nat.le_refl _) eq_refl l Hl). }
  lia.
Qed.

End DetectorMoreFacts.

Lemma report_printed_although_found_witness :
  identify_toc [ten_lines "1.1 Scope 3"]
  = (["Scanning for table of contents..."; "No table of contents found!"],
     List.concat (map Py.splitlines [ten_lines "1.1 Scope 3"]))
  /\ snd (identify_toc [ten_lines "1.1 Scope 3"]) <> [].
Proof.
  apply (report_printed_although_found [ten_lines "1.1 Scope 3"]).
  - discriminate.
  - intros pg [<- | []]. split; [reflexivity | simpl; lia].
Defined.

Lemma anchored_threshold_suffices_witness :
  over_threshold (Py.splitlines (ten_lines "5.2.2 Devices 87")) = true.
Proof.
  apply (anchored_threshold_suffices (ten_lines "5.2.2 Devices 87")).
  reflexivity.
Defined.

Example ends_with_number_ex :
  map ends_with_number ["1.1 Topic 11"; "5.2.2 Devices 87"; "a1"; "12";
                        "Part 1 of the preface"; "87vi Contents"; ""]
  = [true; true; true; false; false; false; false].
Proof. reflexivity. Qed.

(** ** More on the stitcher and [parse_toc] *)

Section StitcherMoreFacts.

Variable check_numeric : string -> bool.
Variable letter_to_number : string -> result Z.

Local Abbreviation Entry_init := (Entry_init check_numeric letter_to_number).
Local Abbreviation Entry_of := (Entry_of check_numeric letter_to_number).
Local Abbreviation stitch_step := (stitch_step check_numeric letter_to_number).
Local Abbreviation stitch := (stitch check_numeric letter_to_number).
Local Abbreviation parse_toc := (parse_toc check_numeric letter_to_number).

Lemma stitch_step_grows (contents contents' : list Entry) (buf buf' : buffer)
  (line : string) :
  stitch_step (contents, buf) line = Ok (contents', buf') ->
  exists new, contents' = (contents ++ new)%list /\ (List.length new <= 2)%nat.
Proof.
  unfold stitch_step.
  destruct (split_line line) as [[sec ttl] pg].
  destruct buf as [[[b0 b1] b2]|];
    destruct (check_numeric sec), (check_numeric pg); intros H.
  - destruct (Entry_of (clean_buffer (b0, b1, b2))) as [e1|x]; [|discriminate H].
    cbn [bind] in H.
    destruct (Entry_init sec ttl pg) as [e2|x]; [|discriminate H].
    injection H as <- _. exists [e1; e2]. split; [reflexivity | simpl; lia].
  - destruct (Entry_of (clean_buffer (b0, b1, b2))) as [e1|x]; [|discriminate H].
    injection H as <- _. exists [e1]. split; [reflexivity | simpl; lia].
  - destruct (Entry_init b0 _ pg) as [e|x]; [|discriminate H].
    injection H as <- _. exists [e]. split; [reflexivity | simpl; lia].
  - injection H as <- _. exists []. split; [now rewrite app_nil_r | simpl; lia].
  - destruct (Entry_init sec ttl pg) as [e|x]; [|discriminate H].
    injection H as <- _. exists [e]. split; [reflexivity | simpl; lia].
  - injection H as <- _. exists []. split; [now rewrite app_nil_r | simpl; lia].
  - injection H as <- _. exists []. split; [now rewrite app_nil_r | simpl; lia].
  - injection H as <- _. exists []. split; [now rewrite app_nil_r | simpl; lia].
Qed.

(** X7: the stitcher only appends: the entries it had stay where they
    are, in their order, and a line adds two entries at most. *)
Theorem stitch_only_appends (toc_text : list string) :
  forall contents buf contents' buf',
    stitch toc_text (contents, buf) = Ok (contents', buf') ->
    exists new,
      contents' = (contents ++ new)%list
      /\ (List.length new <= 2 * List.length toc_text)%nat.
Proof.
  induction toc_text as [|line rest IH]; intros contents buf contents' buf' H.
  - simpl in H. injection H as <- _. exists [].
    split; [now rewrite app_nil_r | simpl; lia].
  - change (stitch (line :: rest) (contents, buf))
      with (st' <- stitch_step (contents, buf) line ;; stitch rest st') in H.
    destruct (stitch_step (contents, buf) line) as [[c1 b1]|x] eqn:Hstep;
      [|discriminate H].
    cbn [bind] in H.
    destruct (stitch_step_grows _ _ _ _ _ Hstep) as (n1 & -> & Hn1).
    destruct (IH _ _ _ _ H) as (n2 & -> & Hn2).
    exists (n1 ++ n2)%list. split; [now rewrite app_assoc|].
    rewrite length_app. simpl. lia.
Qed.

(** X8: in a text without a numbered line nothing is kept: every line
    whose first token the classifier rejects is skipped while the buffer
    is empty, so the stitcher ends as it started, and [parse_toc] with no
    entry to calibrate raises [IndexError] on any document with a page. *)
Theorem unnumbered_text_raises (toc_text : list string) :
  (forall line, In line toc_text ->
     check_numeric (fst (fst (split_line line))) = false) ->
  (forall contents, stitch toc_text (contents, None) = Ok (contents, None))
  /\ (forall pg rest, parse_toc (pg :: rest) toc_text = Raise IndexError).
Proof.
  intros Hall.
  assert (Hst : forall contents,
             stitch toc_text (contents, None) = Ok (contents, None)).
  { induction toc_text as [|line rest IH]; intros contents; [reflexivity|].
    change (stitch (line :: rest) (contents, None))
      with (st' <- stitch_step (contents, None) line ;; stitch rest st').
    assert (Hstep : stitch_step (contents, None) line = Ok (contents, None)).
    { unfold stitch_step. pose proof (Hall line (or_introl eq_refl)) as Hl.
      destruct (split_line line) as [[sec ttl] pg]. simpl in Hl.
      now rewrite Hl. }
    rewrite Hstep. cbn [bind]. apply IH.
    intros l Hl. apply Hall. now right. }
  split; [exact Hst|].
  intros pg rest. unfold parse_toc. now rewrite Hst.
Qed.

(** X9: lines that continue a multi-line entry (neither their first nor
    their last token is numeric) raise nothing, add no entry and leave
    the section token of the buffer as it is, however many they are. *)
Theorem continuation_keeps_section (lines : list string) :
  (forall line, In line lines ->
     check_numeric (fst (fst (split_line line))) = false
     /\ check_numeric (snd (split_line line)) = false) ->
  forall contents b0 b1 b2,
    exists ttl pg,
      stitch lines (contents, Some (b0, b1, b2))
      = Ok (contents, Some (b0, ttl, pg)).
Proof.
  induction lines as [|line rest IH]; intros Hall contents b0 b1 b2.
  - now exists b1, b2.
  - change (stitch (line :: rest) (contents, Some (b0, b1, b2)))
      with (st' <- stitch_step (contents, Some (b0, b1, b2)) line ;;
            stitch rest st').
    destruct (Hall line (or_introl eq_refl)) as [Hs Hp].
    unfold stitch_step.
    destruct (split_line line) as [[sec ttl] pg]. simpl in Hs, Hp.
    rewrite Hs, Hp. cbn [bind].
    apply IH. intros l Hl. apply Hall. now right.
Qed.

(** X10: what [parse_toc] can give.  A list it returns is never empty and
    has one entry for each entry the stitcher finished; an exception it
    raises is either the one of building an entry or the [IndexError] of
    a stitcher that finished no entry, in a document with a page. *)
Theorem parse_toc_outcomes (pages toc_text : list string) :
  (forall l,
      parse_toc pages toc_text = Ok (Some l) ->
      l <> []
      /\ exists contents buf,
           stitch toc_text ([], None) = Ok (contents, buf)
           /\ List.length l = List.length contents)
  /\ (forall x,
        parse_toc pages toc_text = Raise x ->
        stitch toc_text ([], None) = Raise x
        \/ (x = IndexError /\ pages <> []
            /\ exists buf, stitch toc_text ([], None) = Ok ([], buf))).
Proof.
  unfold parse_toc.
  destruct (stitch toc_text ([], None)) as [[contents buf]|x0] eqn:Hst;
    cbn [bind fst].
  - destruct contents as [|e es].
    + destruct pages as [|pg ps]; cbn.
      * split; [intros l H; discriminate H | intros x H; discriminate H].
      * split; [intros l H; discriminate H|].
        intros x H. injection H as <-. right.
        split; [reflexivity|]. split; [discriminate | now exists buf].
    + assert (Hloop : forall ps i,
                 exists r, offset_loop i ps (alloc (e :: es))
                             (seq 0 (List.length (e :: es))) = Ok r
                           /\ (snd r = None
                               \/ snd r = Some (seq 0 (List.length (e :: es))))).
      { induction ps as [|pg ps IHps]; intros i; cbn [List.length seq offset_loop].
        - eexists; split; [reflexivity | now left].
        - destruct (Py.contains _ _).
          + eexists; split; [reflexivity | now right].
          + apply IHps. }
      unfold offset_first_page.
      destruct (Hloop pages 0) as ([h' ret] & -> & Hret). cbn [bind fst snd].
      split; [|intros x H; discriminate H].
      intros l H. simpl in Hret. destruct Hret as [-> | ->]; [discriminate H|].
      cbn [option_map] in H. injection H as <-.
      split; [discriminate|]. exists (e :: es), buf.
      split; [reflexivity|]. simpl. now rewrite length_map, length_seq.
  - split; [intros l H; discriminate H|].
    intros x H. injection H as <-. now left.
Qed.

Lemma contains_empty (s : string) : Py.contains "" s = true.
Proof. now destruct s. Qed.

(** X12: an entry without a title is found on the first page, whatever
    the page says: when the first finished entry has the empty title,
    every page number is lowered by one. *)
Theorem empty_title_matches_first_page (pg : string) (rest toc_text : list string)
  (e0 : Entry) (es : list Entry) (buf : buffer) :
  stitch toc_text ([], None) = Ok (e0 :: es, buf) ->
  title e0 = "" ->
  parse_toc (pg :: rest) toc_text
  = Ok (Some (map (fun e =>
                     mkEntry (title e) (page e - 1) (appendix e)
                             (chapter e) (section e) (subsection e))
                  (e0 :: es))).
Proof.
  intros Hst Httl. unfold parse_toc. rewrite Hst. cbn [bind fst].
  pose proof (offset_loop_found (title e0) (alloc (e0 :: es)) 0%nat
                (seq 1 (List.length es)) eq_refl (pg :: rest) 0%nat 0 pg
                eq_refl) as Heq.
  rewrite Httl in Heq. specialize (Heq (contains_empty _)).
  specialize (Heq ltac:(intros j q Hj; lia)).
  change (seq 0 (List.length (e0 :: es)))
    with (0%nat :: seq 1 (List.length es)).
  unfold offset_first_page. unfold loc in Heq. rewrite Heq.
  cbn [bind fst snd option_map]. do 2 f_equal.
  apply (alloc_read (e0 :: es)
           (fun e => mkEntry (title e) (page e - 1) (appendix e)
                             (chapter e) (section e) (subsection e))).
  intros r Hr.
  rewrite add_to_pages_inside;
    [| change (NoDup (seq 0 (S (List.length es)))); apply seq_NoDup | exact Hr].
  unfold with_page. f_equal.
Qed.

End StitcherMoreFacts.

Lemma stitch_only_appends_witness :
  exists new,
    [mkEntry "Introduction" 1 false 1 0 0;
     mkEntry "Methods continued from page 12" 22 false 2 1 0]
    = ([mkEntry "Introduction" 1 false 1 0 0] ++ new)%list
    /\ (List.length new
        <= 2 * List.length ["2.1 Methods continued"; "from page 12 22"])%nat.
Proof.
  apply (stitch_only_appends Utils.check_numeric Utils.letter_to_number
           ["2.1 Methods continued"; "from page 12 22"]
           [mkEntry "Introduction" 1 false 1 0 0] None _ None).
  reflexivity.
Defined.

Lemma unnumbered_text_raises_witness :
  parse_toc Utils.check_numeric Utils.letter_to_number
    ["Preface"] ["Published by The Publishers Ltd."; "Homework problems 48"]
  = Raise IndexError.
Proof.
  apply (proj2 (unnumbered_text_raises Utils.check_numeric
                  Utils.letter_to_number
                  ["Published by The Publishers Ltd."; "Homework problems 48"]
                  ltac:(intros line [<- | [<- | []]]; reflexivity))).
Defined.

Lemma continuation_keeps_section_witness :
  exists ttl pg,
    stitch Utils.check_numeric Utils.letter_to_number
      ["and their use in"; "the laboratory and"]
      ([], Some ("2.1", "Methods", "continued"))
    = Ok ([], Some ("2.1", ttl, pg)).
Proof.
  apply (continuation_keeps_section Utils.check_numeric Utils.letter_to_number
           ["and their use in"; "the laboratory and"]).
  intros line [<- | [<- | []]]; split; reflexivity.
Defined.

Lemma empty_title_matches_first_page_witness :
  parse_toc Utils.check_numeric Utils.letter_to_number
    ["Preface"; "Chapter 1"] ["1 5"]
  = Ok (Some [mkEntry "" 4 false 1 0 0]).
Proof.
  apply (empty_title_matches_first_page Utils.check_numeric
           Utils.letter_to_number "Preface" ["Chapter 1"] ["1 5"]
           (mkEntry "" 5 false 1 0 0) [] None).
  - reflexivity.
  - reflexivity.
Defined.

Lemma parse_toc_calibrated_witness :
  parse_toc Utils.check_numeric Utils.letter_to_number
    ["Preface"; "Contents"; "Chapter 1 Introduction"]
    ["1 Introduction 1"; "1.1 Background 3"; "1.1.1 Prior Work 5"]
  = Ok (Some [mkEntry "Introduction" 2 false 1 0 0;
              mkEntry "Background" 4 false 1 1 0;
              mkEntry "Prior Work" 6 false 1 1 1]).
Proof.
  apply (parse_toc_calibrated Utils.check_numeric Utils.letter_to_number
           ["Preface"; "Contents"; "Chapter 1 Introduction"]
           ["1 Introduction 1"; "1.1 Background 3"; "1.1.1 Prior Work 5"]
           (mkEntry "Introduction" 1 false 1 0 0)
           [mkEntry "Background" 3 false 1 1 0;
            mkEntry "Prior Work" 5 false 1 1 1]
           None 2%nat "Chapter 1 Introduction").
  - reflexivity.
  - reflexivity.
  - reflexivity.
  - intros j q Hj Hq.
    destruct j as [|[|j]]; [| | lia]; injection Hq as <-; reflexivity.
Defined.

(** ** The outline *)

Section OutlineFacts.

Variable contents : list Entry.

(** X14: the indexing of [add_bookmarks_to_pdf] stays in range: there is
    one section-level group and one list of subsection-level groups for
    each chapter-level entry, and in each of these lists one
    subsection-level group for each entry of the section-level group. *)
Theorem grouping_indices_in_range :
  List.length (section_level contents) = List.length (chapter_level contents)
  /\ List.length (subsection_level contents)
     = List.length (chapter_level contents)
  /\ forall i,
       List.length (nth i (subsection_level contents) [])
       = List.length (nth i (section_level contents) []).
Proof.
  assert (H1 : List.length (section_level contents)
               = List.length (chapter_level contents))
    by (unfold section_level; apply length_map).
  assert (H2 : List.length (subsection_level contents)
               = List.length (chapter_level contents)).
  { unfold subsection_level, enumerate.
    now rewrite length_map, length_combine, length_seq, Nat.min_id. }
  split; [exact H1|]. split; [exact H2|]. intros i.
  destruct (nth_error (subsection_level contents) i) as [gs|] eqn:E.
  - destruct (subsection_level_nth contents i gs E) as (chap & _ & Hgs).
    rewrite (nth_error_nth _ _ _ E), Hgs. apply length_map.
  - apply nth_error_None in E.
    rewrite !nth_overflow; [reflexivity | lia | exact E].
Qed.

Lemma in_enumerate {A : Type} (l : list A) (j : nat) (x : A) :
  In (j, x) (enumerate l) -> nth_error l j = Some x.
Proof.
  intros H. apply In_nth_error in H as [n Hn].
  unfold enumerate in Hn. rewrite nth_error_enumerate in Hn.
  destruct (nth_error l n) as [y|] eqn:E; [|discriminate Hn].
  cbn [option_map Nat.add] in Hn. injection Hn as <- <-. exact E.
Qed.

Lemma fold_left_invariant {A B : Type} (P : A -> Prop) (f : A -> B -> A)
  (l : list B) :
  (forall a x, In x l -> P a -> P (f a x)) ->
  forall a, P a -> P (fold_left f l a).
Proof.
  induction l as [|x l IH]; intros Hf a Ha; [exact Ha|].
  cbn [fold_left]. apply IH.
  - intros a' y Hy. apply Hf. now right.
  - apply Hf; [now left | exact Ha].
Qed.

(** The label of an entry that is no appendix is not the placeholder. *)
Lemma label_not_placeholder (e : Entry) :
  appendix e = false -> Entry_str e <> "[UNHANDLED APPENDIX]".
Proof.
  intros Happ.
  assert (Hstr : forall n r, Py.str n ++ r <> "[UNHANDLED APPENDIX]").
  { intros n r H. destruct (Z_lt_le_dec n 0) as [Hn|Hn].
    - destruct (str_neg n Hn) as (ds & Heq & _). rewrite Heq in H.
      discriminate H.
    - destruct (str_nonneg n Hn) as [Hnum _].
      destruct (numeral_head _ Hnum) as (c & s & Heq & Hc).
      rewrite Heq in H. simpl in H. injection H as -> _. discriminate Hc. }
  unfold Entry_str. rewrite Happ.
  destruct (truthy (subsection e)); [apply Hstr|].
  destruct (truthy (section e)); [apply Hstr | discriminate].
Qed.

Lemma add_call_of_entry (w : list outline_call) (e : Entry)
  (parent : option nat) :
  In e contents -> appendix e = false ->
  Forall (call_of_entry contents) w ->
  Forall (call_of_entry contents)
         (fst (add_outline_item w (Entry_str e) (page e) parent)).
Proof.
  intros Hin Happ Hw. unfold add_outline_item. cbn [fst].
  apply Forall_app. split; [exact Hw|]. constructor; [|constructor].
  exists e. repeat split; auto. now apply label_not_placeholder.
Qed.

(** X15: every call that [add_bookmarks_to_pdf] makes to the writer
    writes an entry of the list that is no appendix, with the label and
    the page of that entry; so no appendix entry is ever written and no
    label is the placeholder of [__str__]. *)
Theorem outline_calls_are_entries (c : outline_call) :
  In c (write_outline contents) ->
  exists e,
    In e contents /\ appendix e = false
    /\ fst (fst c) = Entry_str e /\ snd (fst c) = page e
    /\ fst (fst c) <> "[UNHANDLED APPENDIX]".
Proof.
  assert (H : Forall (call_of_entry contents) (write_outline contents)).
  { unfold write_outline.
    apply (fold_left_invariant (Forall (call_of_entry contents)));
      [|constructor].
    intros w [i chap] Hic Hw. apply in_enumerate in Hic.
    assert (Hchap : In chap (chapter_level contents))
      by (eapply nth_error_In; eauto).
    apply chapter_level_In in Hchap as (Hin & Happ & _).
    pose proof (add_call_of_entry w chap None Hin Happ Hw) as Hw1.
    unfold add_outline_item in *. cbn [fst] in Hw1.
    unfold write_sections.
    apply (fold_left_invariant (Forall (call_of_entry contents)));
      [|exact Hw1].
    intros w2 [j sec] Hjs Hw2. apply in_enumerate in Hjs.
    assert (Hsec : In sec (nth i (section_level contents) []))
      by (eapply nth_error_In; eauto).
    apply section_level_In in Hsec as (chap' & _ & Hin' & _ & Happ' & _).
    pose proof (add_call_of_entry w2 sec (Some (List.length w)) Hin' Happ' Hw2)
      as Hw3.
    cbn [fst] in Hw3. unfold write_subsections.
    apply (fold_left_invariant (Forall (call_of_entry contents)));
      [|exact Hw3].
    intros w4 sub Hsub Hw4.
    apply subsection_level_In in Hsub
      as (chap2 & sec2 & _ & _ & Hin2 & _ & _ & Happ2 & _).
    now apply add_call_of_entry. }
  intros Hc. exact (proj1 (Forall_forall _ _) H c Hc).
Qed.

End OutlineFacts.

Lemma outline_calls_are_entries_witness :
  exists e,
    In e example_contents /\ appendix e = false
    /\ "1.1 - Background (page 3)" = Entry_str e /\ 3 = page e
    /\ "1.1 - Background (page 3)" <> "[UNHANDLED APPENDIX]".
Proof.
  apply (outline_calls_are_entries example_contents
           ("1.1 - Background (page 3)", 3, Some 0%nat)).
  right; left; reflexivity.
Defined.

(** The calls made for the three entries of a small table. *)
Example write_outline_ex :
  write_outline example_contents
  = [("Ch. 1 - Introduction (page 1)", 1, None);
     ("1.1 - Background (page 3)", 3, Some 0%nat);
     ("1.1.1 - Prior Work (page 5)", 5, Some 1%nat)].
Proof. reflexivity. Qed.

(** ** [write_bookmarks] *)

Section WriteBookmarksFacts.

Variable check_numeric : string -> bool.
Variable letter_to_number : string -> result Z.

(** X16: when no page has the title of the first entry in its first
    three lines, [parse_toc] returns [None] and [write_bookmarks] fails
    with the [TypeError] of iterating over it, before the writer is
    opened; the same happens for a document without pages. *)
Theorem calibration_miss_is_type_error (pages : list string) (e0 : Entry)
  (es : list Entry) (buf : buffer) :
  stitch check_numeric letter_to_number (snd (identify_toc pages)) ([], None)
  = Ok (e0 :: es, buf) ->
  (forall q, In q pages -> Py.contains (title e0) (page_head q) = false) ->
  write_bookmarks check_numeric letter_to_number pages = inl TypeError.
Proof.
  intros Hst Hnone.
  unfold write_bookmarks, write_bookmarks_toc, parse_toc.
  rewrite Hst. cbn [bind fst].
  pose proof (offset_loop_not_found (title e0) (alloc (e0 :: es)) 0%nat
                (seq 1 (List.length es)) eq_refl pages 0 Hnone) as Heq.
  change (seq 0 (List.length (e0 :: es)))
    with (0%nat :: seq 1 (List.length es)).
  unfold offset_first_page. unfold loc in Heq. now rewrite Heq.
Qed.

End WriteBookmarksFacts.

Lemma calibration_miss_is_type_error_witness :
  write_bookmarks Utils.check_numeric Utils.letter_to_number
    [Py.join (String "010" "")
       (["Contents 1"; "Preface 2"; "Foreword 3"] ++ repeat "1.1 Scope 3" 7)]
  = inl TypeError.
Proof.
  apply (calibration_miss_is_type_error Utils.check_numeric
           Utils.letter_to_number
           [Py.join (String "010" "")
              (["Contents 1"; "Preface 2"; "Foreword 3"]
               ++ repeat "1.1 Scope 3" 7)]
           (mkEntry "Scope" 3 false 1 1 0)
           (repeat (mkEntry "Scope" 3 false 1 1 0) 6) None).
  - reflexivity.
  - intros q [<- | []]. reflexivity.
Defined.

(** ** The repair of the buffer, short pages, complete lines *)

Section RepairFacts.

Variable check_numeric : string -> bool.
Variable letter_to_number : string -> result Z.

Local Abbreviation Entry_of := (Entry_of check_numeric letter_to_number).
Local Abbreviation Entry_init := (Entry_init check_numeric letter_to_number).
Local Abbreviation stitch_step := (stitch_step check_numeric letter_to_number).
Local Abbreviation stitch := (stitch check_numeric letter_to_number).


(** X18: a table of contents on pages of fewer than ten lines is never
    found: when every page of the document has fewer than ten lines,
    [identify_toc] returns no line and prints its report. *)
Theorem short_pages_never_found (pages : list string) :
  (forall pg, In pg pages -> (List.length (Py.splitlines pg) < 10)%nat) ->
  identify_toc pages
  = (["Scanning for table of contents..."; "No table of contents found!"], []).
Proof.
  intros Hall.
  assert (H : toc_loop pages ([], false)
              = (["No table of contents found!"], ([], false))).
  { induction pages as [|pg rest IH]; [reflexivity|].
    cbn [toc_loop]. unfold toc_step.
    pose proof (Hall pg (or_introl eq_refl)) as Hlen.
    apply Nat.ltb_lt in Hlen. rewrite Hlen. cbn [negb andb].
    destruct (over_threshold (Py.splitlines pg));
      apply IH; intros q Hq; apply Hall; now right. }
  unfold identify_toc. now rewrite H.
Qed.

(** X19: a text of complete lines (first and last token numeric) gives
    one entry for each line, in the order of the lines, and leaves the
    buffer empty; the first line whose entry cannot be built ends the
    parse with its exception. *)
Theorem complete_lines_one_entry_each (toc_text : list string) :
  (forall line, In line toc_text ->
     check_numeric (fst (fst (split_line line))) = true
     /\ check_numeric (snd (split_line line)) = true) ->
  forall contents,
    stitch toc_text (contents, None)
    = (es <- mapM (fun line => Entry_of (split_line line)) toc_text ;;
       Ok ((contents ++ es)%list, None)).
Proof.
  induction toc_text as [|line rest IH]; intros Hall contents.
  - simpl. now rewrite app_nil_r.
  - change (stitch (line :: rest) (contents, None))
      with (st' <- stitch_step (contents, None) line ;; stitch rest st').
    destruct (Hall line (or_introl eq_refl)) as [Hs Hp].
    unfold stitch_step. cbn [mapM].
    destruct (split_line line) as [[sec ttl] pg]. simpl in Hs, Hp.
    rewrite Hs, Hp. unfold Entry_of.
    destruct (Entry_init sec ttl pg) as [e|x]; cbn [bind]; [|reflexivity].
    rewrite IH by (intros l Hl; apply Hall; now right).
    destruct (mapM _ rest) as [es|x]; cbn [bind]; [|reflexivity].
    now rewrite <- app_assoc.
Qed.

End RepairFacts.


Lemma short_pages_never_found_witness :
  identify_toc [Py.join (String "010" "") (repeat "1.1 Scope 3" 9)]
  = (["Scanning for table of contents..."; "No table of contents found!"], []).
Proof.
  apply (short_pages_never_found
           [Py.join (String "010" "") (repeat "1.1 Scope 3" 9)]).
  intros pg [<- | []]. simpl. lia.
Defined.

Lemma complete_lines_one_entry_each_witness :
  stitch Utils.check_numeric Utils.letter_to_number
    ["1 Introduction 1"; "1.1 Background 3"; "1.1.1 Prior Work 5"] ([], None)
  = (es <- mapM (fun line =>
                   Entry_of Utils.check_numeric Utils.letter_to_number
                            (split_line line))
                ["1 Introduction 1"; "1.1 Background 3"; "1.1.1 Prior Work 5"] ;;
     Ok (([] ++ es)%list, None)).
Proof.
  apply (complete_lines_one_entry_each Utils.check_numeric
           Utils.letter_to_number
           ["1 Introduction 1"; "1.1 Background 3"; "1.1.1 Prior Work 5"]).
  intros line [<- | [<- | [<- | []]]]; split; reflexivity.
Defined.
